(** * LeCroy T3DSO1204 oscilloscope driver: waveform preamble and source dispatch

    A shallow embedding of [pymeasure/instruments/lecroy/lecroyT3DSO1204.py].

    The driver is a thin layer over an instrument session: every property
    read is a round trip to the scope and nothing is cached.  The session is
    modelled by the list of accesses made so far plus a device that answers
    each access as a function of that history, so that two reads of the same
    property may see different values.  Python exceptions are results; the
    accesses made before an exception stay in the history. *)

From Stdlib Require Import ZArith QArith String Ascii List Bool Lia DecimalString.
From stdpp Require Import base option list strings gmap.

Set Warnings "-register-all".
Local Open Scope string_scope.
Local Open Scope Z_scope.

(** ** Python values *)

(** The values the driver handles.  A [float] is modelled by the rational it
    denotes (NaN, the infinities and the negative zero are outside the
    model); a [str] is a sequence of code points below 256, which covers the
    ASCII replies of the instrument. *)
Inductive pyval : Type :=
  | PNone
  | PBool (b : bool)
  | PInt (z : Z)
  | PFloat (q : Q)
  | PStr (s : string)
  | PList (l : list pyval).

Inductive exn : Type :=
  | ValueError (msg : string)
  | TypeError
  | IndexError
  | AttributeError
  | KeyError
  | RecursionError
  | OverflowError
  | DeviceError (msg : string).

(** The outcome of a Python call: an exception or a value. *)
Inductive res (A : Type) : Type :=
  | Raise (e : exn)
  | Ret (a : A).
Arguments Raise {A} e.
Arguments Ret {A} a.

(** Invalid-argument errors are Python's [ValueError]. *)
Definition is_invalid_argument (e : exn) : bool :=
  match e with ValueError _ => true | _ => false end.

(** The number a value denotes, for Python's mixed comparisons
    ([True == 1], [1 == 1.0]). *)
Definition num_of (v : pyval) : option Q :=
  match v with
  | PBool b => Some (inject_Z (if b then 1 else 0))
  | PInt z => Some (inject_Z z)
  | PFloat q => Some q
  | _ => None
  end.

(** Python's [==]. *)
Fixpoint py_eq (a b : pyval) {struct a} : bool :=
  match a, b with
  | PNone, PNone => true
  | PStr s, PStr t => if decide (s = t) then true else false
  | PList la, PList lb =>
      (fix all2 (xs ys : list pyval) {struct xs} : bool :=
         match xs, ys with
         | [], [] => true
         | x :: xs', y :: ys' => py_eq x y && all2 xs' ys'
         | _, _ => false
         end) la lb
  | _, _ =>
      match num_of a, num_of b with
      | Some x, Some y => Qeq_bool x y
      | _, _ => false
      end
  end.

(** [x in l] for a list [l]. *)
Definition py_in (x : pyval) (l : list pyval) : bool :=
  existsb (py_eq x) l.

(** [l.index(x)]: position of the first element equal to [x]; the text of
    the error, which quotes [repr(x)], is not modelled. *)
Fixpoint py_list_index (x : pyval) (l : list pyval) : res nat :=
  match l with
  | [] => Raise (ValueError "x is not in list")
  | y :: l' =>
      if py_eq y x then Ret O
      else match py_list_index x l' with
           | Ret i => Ret (S i)
           | Raise e => Raise e
           end
  end.

(** [l[i]] for a list and a non-negative position. *)
Definition py_list_get (l : list pyval) (i : nat) : res pyval :=
  match l !! i with
  | Some v => Ret v
  | None => Raise IndexError
  end.

(** [v[i]] for any value and a non-negative position: lists and strings are
    subscriptable, the other values are not. *)
Definition py_getitem (v : pyval) (i : nat) : res pyval :=
  match v with
  | PList l => py_list_get l i
  | PStr s =>
      match String.get i s with
      | Some c => Ret (PStr (String c EmptyString))
      | None => Raise IndexError
      end
  | _ => Raise TypeError
  end.

(** Python's [<]: numbers by value, strings and lists lexicographically,
    anything else is a [TypeError]. *)
Fixpoint py_lt (a b : pyval) {struct a} : res bool :=
  match a, b with
  | PStr s, PStr t => Ret (String.ltb s t)
  | PList la, PList lb =>
      (fix lex (xs ys : list pyval) {struct xs} : res bool :=
         match xs, ys with
         | [], [] => Ret false
         | [], _ :: _ => Ret true
         | _ :: _, [] => Ret false
         | x :: xs', y :: ys' =>
             if py_eq x y then lex xs' ys' else py_lt x y
         end) la lb
  | _, _ =>
      match num_of a, num_of b with
      | Some x, Some y => Ret (negb (Qle_bool y x))
      | _, _ => Raise TypeError
      end
  end.

(** [min(a, b)]: the second argument wins only when it is strictly smaller. *)
Definition py_min (a b : pyval) : res pyval :=
  match py_lt b a with
  | Ret true => Ret b
  | Ret false => Ret a
  | Raise e => Raise e
  end.

(** ** The pattern of a math definition *)

(** The driver parses the definition of the math trace with
    [re.match(r"'(\w+)[+\-/*](\w+)'", math_define)].  On code points below
    256 the class [\w] of a [str] pattern holds the ASCII letters and
    digits, the underscore, and the Latin-1 letters and numerics. *)
Definition is_word_char (c : ascii) : bool :=
  let n := N_of_ascii c in
  ((48 <=? n) && (n <=? 57) || (65 <=? n) && (n <=? 90)
   || (97 <=? n) && (n <=? 122) || (n =? 95)
   || (n =? 170) || (n =? 178) || (n =? 179) || (n =? 181)
   || (n =? 185) || (n =? 186) || (188 <=? n) && (n <=? 190)
   || (192 <=? n) && (n <=? 214) || (216 <=? n) && (n <=? 246)
   || (248 <=? n) && (n <=? 255))%N.

Definition is_operator (c : ascii) : bool :=
  let n := N_of_ascii c in
  ((n =? 43) || (n =? 45) || (n =? 47) || (n =? 42))%N.

Definition is_quote (c : ascii) : bool := (N_of_ascii c =? 39)%N.

(** The longest prefix of word characters and what follows it: since no
    operator and no quote is a word character, a greedy [\w+] can only stop
    there. *)
Fixpoint span_word (s : string) : string * string :=
  match s with
  | EmptyString => (EmptyString, EmptyString)
  | String c s' =>
      if is_word_char c
      then let (w, r) := span_word s' in (String c w, r)
      else (EmptyString, s)
  end.

(** The two groups of the match, or [None] when [re.match] returns [None].
    The match is anchored at the start of the string only. *)
Definition math_re (s : string) : option (string * string) :=
  match s with
  | String q s1 =>
      if is_quote q then
        let (g1, s2) := span_word s1 in
        match g1, s2 with
        | String _ _, String op s3 =>
            if is_operator op then
              let (g2, s4) := span_word s3 in
              match g2, s4 with
              | String _ _, String q' _ =>
                  if is_quote q' then Some (g1, g2) else None
              | _, _ => None
              end
            else None
        | _, _ => None
        end
      else None
  | EmptyString => None
  end.

(** What the pattern says, stated without an algorithm: a quote, a
    non-empty word, one operator, a non-empty word, a quote, and then
    anything.  [math_re_spec] below shows that [math_re] computes exactly
    the groups of this decomposition, which is unique. *)
Fixpoint is_word (w : string) : bool :=
  match w with
  | EmptyString => true
  | String c w' => is_word_char c && is_word w'
  end.

Definition math_pattern (s g1 g2 : string) : Prop :=
  exists (q op q' : ascii) (rest : string),
    s = String q (g1 ++ String op (g2 ++ String q' rest))
    /\ is_quote q = true /\ is_quote q' = true /\ is_operator op = true
    /\ g1 <> "" /\ is_word g1 = true /\ g2 <> "" /\ is_word g2 = true.

(** [re.match(pattern, v)]: the subject must be a string. *)
Definition re_match (v : pyval) : res (option (string * string)) :=
  match v with
  | PStr s => Ret (math_re s)
  | _ => Raise TypeError
  end.

(** [match.group(1)] and [match.group(2)]; on a failed match the receiver is
    [None], which has no attribute [group]. *)
Definition match_group1 (m : option (string * string)) : res pyval :=
  match m with
  | Some (g1, _) => Ret (PStr g1)
  | None => Raise AttributeError
  end.

Definition match_group2 (m : option (string * string)) : res pyval :=
  match m with
  | Some (_, g2) => Ret (PStr g2)
  | None => Raise AttributeError
  end.

(** ** The instrument session *)

(** What the driver can ask for, and what it does: [Wrote prop command] is
    the setter of the property [prop] sending the text [command].  [Query cmd] is the getter of a property
    that this file binds to the query [cmd]; [Attr name] is the getter of a
    property inherited from the oscilloscope base class; [ChAttr source name]
    is [self.ch(source).name]. *)
Inductive request : Type :=
  | Query (cmd : string)
  | Attr (name : string)
  | ChAttr (source : pyval) (name : string).

Inductive event : Type :=
  | Values (cmd : string)
  | Get (r : request)
  | Wrote (prop command : string).

Abbreviation history := (list event).

(** The instrument together with the inherited getter machinery: the answer
    to an access may depend on everything done before. *)
Record device : Type := Device {
  dev_values : history -> string -> res (list pyval);
  dev_get : history -> request -> res pyval
}.

(** Computations of the driver: they extend the history and return or raise. *)
Definition M (A : Type) : Type := history -> res A * history.

Definition ret {A} (a : A) : M A := fun h => (Ret a, h).
Definition raise {A} (e : exn) : M A := fun h => (Raise e, h).
Definition lift {A} (r : res A) : M A := fun h => (r, h).
Definition bind {A B} (m : M A) (k : A -> M B) : M B :=
  fun h => match m h with
           | (Ret a, h') => k a h'
           | (Raise e, h') => (Raise e, h')
           end.

(** Record an access in the history. *)
Definition log (e : event) : M unit := fun h => (Ret tt, (h ++ [e])%list).

Notation "'let!' x ':=' m 'in' k" := (bind m (fun x => k))
  (at level 10, x name, m at level 100, k at level 200).

(** ** Validators and setters of the property framework *)

(** Modelled from the spec: the validation collaborator of
    [pymeasure.instruments.validators], which is not part of this file.
    Discrete-set membership returns the accepted value or signals an
    invalid argument. *)
Definition strict_discrete_set (value : pyval) (values : list pyval) : res pyval :=
  if py_in value values then Ret value
  else Raise (ValueError "value is not in the discrete set").

(** Modelled from the spec: the numeric range check of the validation
    collaborator; it returns the accepted value or signals an invalid
    argument. *)
Definition strict_range (value : pyval) (lo hi : Q) : res pyval :=
  match num_of value with
  | Some x =>
      if Qle_bool lo x && Qle_bool x hi then Ret value
      else Raise (ValueError "value is not in the range")
  | None => Raise (ValueError "value is not in the range")
  end.

(** *** Numbers as text *)

(** The integer nearest to [a / b], the even one of the two when [a / b] is
    half-way ([0 <= a] and [0 < b]). *)
Definition round_half_even (a b : Z) : Z :=
  let q := a / b in
  match 2 * (a mod b) ?= b with
  | Lt => q
  | Gt => q + 1
  | Eq => if Z.even q then q else q + 1
  end.

(** The fraction [n / d * base ^ k]. *)
Definition scaled (base n d k : Z) : Z * Z :=
  if 0 <=? k then (n * base ^ k, d) else (n, d * base ^ (- k)).

(** How many times [n] can be divided by [base] before it drops below
    [base]: the integer logarithm of [n >= 1]. *)
Fixpoint ilog (fuel : nat) (base n : Z) : Z :=
  match fuel with
  | O => 0
  | S fuel' => if n <? base then 0 else 1 + ilog fuel' base (n / base)
  end.

(** The largest [k] with [base ^ k <= n / d], for positive [n] and [d]: the
    difference of the two integer logarithms or one less. *)
Definition floor_log (base n d : Z) : Z :=
  let c := ilog (Z.to_nat (Z.log2 n)) base n - ilog (Z.to_nat (Z.log2 d)) base d in
  let (a, b) := scaled base d n c in
  if a <=? b then c else c - 1.

(** The float nearest to a rational, as [float(n)] and a decimal literal
    compute it: 53 significant bits, exponents down to -1074, ties to even;
    [None] when the result would be beyond the largest float. *)
Definition nearest_double (q : Q) : option Q :=
  let n := Z.abs (Qnum q) in
  let d := Z.pos (Qden q) in
  if n =? 0 then Some 0%Q
  else
    let e := Z.max (floor_log 2 n d - 52) (-1074) in
    let (a, b) := scaled 2 n d (- e) in
    let m := Z.sgn (Qnum q) * round_half_even a b in
    if 0 <=? e
    then if 2 ^ 1024 <=? Z.abs m * 2 ^ e then None else Some (inject_Z (m * 2 ^ e))
    else Some (m # Z.to_pos (2 ^ (- e))).

(** The digits of an integer, with a minus sign when it is negative. *)
Definition decimal (z : Z) : string := NilZero.string_of_int (Z.to_int z).

(** The three digits [m] and the decimal exponent [e] of a positive
    [n / d]: [m] is [n / d * 10 ^ (2 - e)] rounded, ties to even, where
    [10 ^ e <= n / d < 10 ^ (e + 1)]; when the rounding reaches 1000 the
    digits are 100 and the exponent is one more. *)
Definition digits_2E (n d : Z) : Z * Z :=
  let e := floor_log 10 n d in
  let (a, b) := scaled 10 n d (2 - e) in
  let m := round_half_even a b in
  if m =? 1000 then (100, e + 1) else (m, e).

(** ['%.2E' % x] for a float [x]: three significant digits, the last one
    rounded on the exact value of [x] with ties to even, and an exponent of
    at least two digits. *)
Definition format_2E (x : Q) : string :=
  let n := Z.abs (Qnum x) in
  let d := Z.pos (Qden x) in
  if n =? 0 then "0.00E+00"
  else
    let (m, e) := digits_2E n d in
    (if Qnum x <? 0 then "-" else "")
    ++ decimal (m / 100) ++ "." ++ decimal (m / 10 mod 10) ++ decimal (m mod 10)
    ++ "E" ++ (if e <? 0 then "-" else "+")
    ++ (if Z.abs e <? 10 then "0" else "") ++ decimal (Z.abs e).

(** The float that a conversion [%E] makes of its argument: an [int] is
    rounded to the nearest float, and one beyond the range of a float is an
    [OverflowError]; what is not a number is a [TypeError]. *)
Definition py_float (v : pyval) : res Q :=
  match v with
  | PBool b => Ret (inject_Z (if b then 1 else 0))
  | PInt z =>
      match nearest_double (inject_Z z) with
      | Some x => Ret x
      | None => Raise OverflowError
      end
  | PFloat x => Ret x
  | _ => Raise TypeError
  end.

(** The integer that a conversion [%d] prints: a float is truncated towards
    zero; what is not a number is a [TypeError]. *)
Definition py_trunc (v : pyval) : res Z :=
  match v with
  | PBool b => Ret (if b then 1 else 0)
  | PInt z => Ret z
  | PFloat x => Ret (Qnum x ÷ Z.pos (Qden x))
  | _ => Raise TypeError
  end.

(** The conversions of the write templates of the controls modelled here:
    [%.2E] and [%d]. *)
Inductive conversion : Type :=
  | Conv_2E
  | Conv_d.

(** [template % value] for a write template made of the text [before], one
    conversion and the text [after], such as ["HMAG %.2ES"]: the command
    that goes to the instrument, or the exception of the conversion. *)
Definition py_format (before : string) (c : conversion) (after : string)
    (value : pyval) : res string :=
  match c with
  | Conv_2E =>
      match py_float value with
      | Ret x => Ret (before ++ format_2E x ++ after)
      | Raise e => Raise e
      end
  | Conv_d =>
      match py_trunc value with
      | Ret z => Ret (before ++ decimal z ++ after)
      | Raise e => Raise e
      end
  end.

(** The write side of an [Instrument.control]: the attribute it is bound to,
    its write template as the function [value |-> set_command % value], and
    its validator (already applied to its [values]). *)
Record control : Type := Control {
  ctl_name : string;
  set_command : pyval -> res string;
  validator : pyval -> res pyval
}.

(** Modelled from the spec: the setter of the command property accessor,
    defined in [pymeasure.instruments.Instrument] and not part of this file.
    It validates the candidate, formats it into the write template and
    transmits it; a validation failure happens before any transmission. *)
Definition control_set (c : control) (value : pyval) : M unit :=
  let! v := lift (validator c value) in
  let! command := lift (set_command c v) in
  log (Wrote (ctl_name c) command).

(** A setter without [validator] argument accepts every value. *)
Definition no_validator (value : pyval) : res pyval := Ret value.

(** The floats [1e-9] and [20e-3], exactly: both lie a little above the
    decimal fraction of their literal ([float_1e_9] and [float_20e_3] below
    relate them to it). *)
Definition q_1e_9 : Q := 4835703278458517 # 4835703278458516698824704.
Definition q_20e_3 : Q := 5764607523034235 # 288230376151711744.

(** [timebase_hor_magnify = Instrument.control("HMAG?", "HMAG %.2ES", ...,
    validator=strict_range, values=[1e-9, 20e-3])] *)
Definition timebase_hor_magnify : control :=
  Control "timebase_hor_magnify" (py_format "HMAG " Conv_2E "S")
          (fun v => strict_range v q_1e_9 q_20e_3).

(** [timebase_hor_position = Instrument.control("HPOS?", "HPOS %.2ES", ...)] *)
Definition timebase_hor_position : control :=
  Control "timebase_hor_position" (py_format "HPOS " Conv_2E "S") no_validator.

(** ** The driver *)

Section Driver.

(** The instrument behind the session. *)
Variable dev : device.

(** [sanitize_source] of the Teledyne base module normalises a source name
    or rejects it; it is imported by this file, not defined in it. *)
Variable sanitize_source : string -> res string.

(** The write sides of [timebase_scale] and [timebase_offset], which the
    driver inherits from the oscilloscope base class: what their write
    templates make of a value, and their validators. *)
Variable timebase_scale_set : pyval -> res string.
Variable timebase_scale_validator : pyval -> res pyval.
Variable timebase_offset_set : pyval -> res string.
Variable timebase_offset_validator : pyval -> res pyval.

Definition timebase_scale : control :=
  Control "timebase_scale" timebase_scale_set timebase_scale_validator.

Definition timebase_offset : control :=
  Control "timebase_offset" timebase_offset_set timebase_offset_validator.

(** [self.values(cmd)] *)
Definition values (cmd : string) : M (list pyval) :=
  fun h => (dev_values dev h cmd, (h ++ [Values cmd])%list).

(** Reading a property. *)
Definition get (r : request) : M pyval :=
  fun h => (dev_get dev h r, (h ++ [Get r])%list).

(** *** Timebase *)

(** One optional assignment of [timebase_setup]. *)
Definition set_unless_None (c : control) (value : pyval) : M unit :=
  match value with
  | PNone => ret tt
  | _ => control_set c value
  end.

Definition timebase_setup (scale offset hor_magnify hor_position : pyval) : M unit :=
  let! _ := set_unless_None timebase_scale scale in
  let! _ := set_unless_None timebase_offset offset in
  let! _ := set_unless_None timebase_hor_magnify hor_magnify in
  set_unless_None timebase_hor_position hor_position.

(** *** Acquisition *)

Definition acquisition_type : M pyval := get (Query "ACQW?").
Definition acquisition_average : M pyval := get (Query "AVGA?").
Definition acquisition_status : M pyval := get (Query "SAST?").
Definition acquisition_sampling_rate : M pyval := get (Query "SARA?").

Definition acquisition_sample_size_c1 : M pyval := get (Query "SANU? C1").
Definition acquisition_sample_size_c2 : M pyval := get (Query "SANU? C1").
Definition acquisition_sample_size_c3 : M pyval := get (Query "SANU? C3").
Definition acquisition_sample_size_c4 : M pyval := get (Query "SANU? C3").

Definition memory_size : M pyval := get (Query "MSIZ?").

(** Inherited properties read by the driver. *)
Definition waveform_source : M pyval := get (Attr "waveform_source").
Definition math_define : M pyval := get (Attr "math_define").
Definition math_vdiv : M pyval := get (Attr "math_vdiv").
Definition math_vpos : M pyval := get (Attr "math_vpos").

Definition invalid_source_message : string :=
  "Invalid source: must be 1, 2, 3, 4 or C1, C2, C3, C4, MATH.".

(** [if isinstance(source, str): source = sanitize_source(source)] *)
Definition sanitized (source : pyval) : res pyval :=
  match source with
  | PStr s =>
      match sanitize_source s with
      | Ret s' => Ret (PStr s')
      | Raise e => Raise e
      end
  | _ => Ret source
  end.

(** [acquisition_sample_size(source)].  The method calls itself on the
    operands of the math definition; [depth] is the number of nested calls
    the interpreter still allows, and exceeding it is Python's
    [RecursionError]. *)
Fixpoint acquisition_sample_size (depth : nat) (source : pyval) : M pyval :=
  match depth with
  | O => raise RecursionError
  | S depth' =>
      let! source := lift (sanitized source) in
      if py_in source [PInt 1; PStr "C1"] then acquisition_sample_size_c1
      else if py_in source [PInt 2; PStr "C2"] then acquisition_sample_size_c2
      else if py_in source [PInt 3; PStr "C3"] then acquisition_sample_size_c3
      else if py_in source [PInt 4; PStr "C4"] then acquisition_sample_size_c4
      else if py_eq source (PStr "MATH") then
        let! definition := math_define in
        let! math_define := lift (py_getitem definition 1) in
        let! mtch := lift (re_match math_define) in
        let! g1 := lift (match_group1 mtch) in
        let! size1 := acquisition_sample_size depth' g1 in
        let! g2 := lift (match_group2 mtch) in
        let! size2 := acquisition_sample_size depth' g2 in
        lift (py_min size1 size2)
      else raise (ValueError invalid_source_message)
  end.

(** *** Waveform *)

(** [d[k]] for a dict. *)
Definition py_dict_get (d : gmap string pyval) (k : string) : res pyval :=
  match d !! k with
  | Some v => Ret v
  | None => Raise KeyError
  end.

Definition waveform_sources : list pyval :=
  [PStr "C1"; PStr "C2"; PStr "C3"; PStr "C4"; PStr "MATH"].

Definition _fill_yaxis_preamble (preamble : option (gmap string pyval))
  : M (gmap string pyval) :=
  let preamble := match preamble with Some p => p | None => ∅ end in
  let! source := waveform_source in
  if py_eq source (PStr "MATH") then
    let! vdiv := math_vdiv in
    let preamble := <["ydiv" := vdiv]> preamble in
    let! vpos := math_vpos in
    let preamble := <["yoffset" := vpos]> preamble in
    ret (<["unit" := PNone]> preamble)
  else
    let! source1 := waveform_source in
    let! scale := get (ChAttr source1 "scale") in
    let preamble := <["ydiv" := scale]> preamble in
    let! source2 := waveform_source in
    let! offset := get (ChAttr source2 "offset") in
    let preamble := <["yoffset" := offset]> preamble in
    let! source3 := waveform_source in
    let! unit := get (ChAttr source3 "unit") in
    ret (<["unit" := unit]> preamble).

Definition waveform_preamble (depth : nat) : M (gmap string pyval) :=
  let! vals := values "WFSU?" in
  let! i_sp := lift (py_list_index (PStr "SP") vals) in
  let! sparsing := lift (py_list_get vals (i_sp + 1)) in
  let! i_np := lift (py_list_index (PStr "NP") vals) in
  let! requested_points := lift (py_list_get vals (i_np + 1)) in
  let! i_fp := lift (py_list_index (PStr "FP") vals) in
  let! first_point := lift (py_list_get vals (i_fp + 1)) in
  let! source := waveform_source in
  let! type := acquisition_type in
  let! sampling_rate := acquisition_sampling_rate in
  let! grid_number := get (Attr "_grid_number") in
  let! status := acquisition_status in
  let! memory := memory_size in
  let! xdiv := get (Attr "timebase_scale") in
  let! xoffset := get (Attr "timebase_offset") in
  let preamble : gmap string pyval :=
    <["xoffset" := xoffset]> (<["xdiv" := xdiv]> (<["memory_size" := memory]>
    (<["status" := status]> (<["grid_number" := grid_number]>
    (<["sampling_rate" := sampling_rate]> (<["type" := type]>
    (<["source" := source]> (<["transmitted_points" := PNone]>
    (<["first_point" := first_point]> (<["requested_points" := requested_points]>
    (<["sparsing" := sparsing]> ∅))))))))))) in
  let! type' := lift (py_dict_get preamble "type") in
  let! tag := lift (py_getitem type' 0) in
  let! average :=
    (if py_eq tag (PStr "average") then acquisition_average else ret PNone) in
  let preamble := <["average" := average]> preamble in
  let! selected := waveform_source in
  let! _ := lift (strict_discrete_set selected waveform_sources) in
  let! selected' := waveform_source in
  let! sampled_points := acquisition_sample_size depth selected' in
  let preamble := <["sampled_points" := sampled_points]> preamble in
  _fill_yaxis_preamble (Some preamble).

(** The two opening steps of [waveform_preamble] as computations of their
    own, to state what each of them contributes: the dict display (the reads
    up to ["xoffset"]) and the value of ["average"].
    [waveform_preamble_phases] shows that [waveform_preamble] is these two
    steps followed by the source check, the sample size and the Y axis. *)
Definition preamble_fields : M (gmap string pyval) :=
  let! vals := values "WFSU?" in
  let! i_sp := lift (py_list_index (PStr "SP") vals) in
  let! sparsing := lift (py_list_get vals (i_sp + 1)) in
  let! i_np := lift (py_list_index (PStr "NP") vals) in
  let! requested_points := lift (py_list_get vals (i_np + 1)) in
  let! i_fp := lift (py_list_index (PStr "FP") vals) in
  let! first_point := lift (py_list_get vals (i_fp + 1)) in
  let! source := waveform_source in
  let! type := acquisition_type in
  let! sampling_rate := acquisition_sampling_rate in
  let! grid_number := get (Attr "_grid_number") in
  let! status := acquisition_status in
  let! memory := memory_size in
  let! xdiv := get (Attr "timebase_scale") in
  let! xoffset := get (Attr "timebase_offset") in
  ret (<["xoffset" := xoffset]> (<["xdiv" := xdiv]> (<["memory_size" := memory]>
      (<["status" := status]> (<["grid_number" := grid_number]>
      (<["sampling_rate" := sampling_rate]> (<["type" := type]>
      (<["source" := source]> (<["transmitted_points" := PNone]>
      (<["first_point" := first_point]> (<["requested_points" := requested_points]>
      (<["sparsing" := sparsing]> (∅ : gmap string pyval))))))))))))).

Definition preamble_average (preamble : gmap string pyval) : M pyval :=
  let! type' := lift (py_dict_get preamble "type") in
  let! tag := lift (py_getitem type' 0) in
  if py_eq tag (PStr "average") then acquisition_average else ret PNone.

End Driver.

(** ** Concrete sessions *)

(** A sanitiser to run the driver on concrete inputs: it lets the
    normalised names [C<digit>], [MATH] and [LINE] through and rejects
    every other string. *)
Definition sanitize_names (s : string) : res string :=
  match s with
  | "MATH" | "LINE" => Ret s
  | String "C" (String d EmptyString) =>
      if ((48 <=? N_of_ascii d) && (N_of_ascii d <=? 57))%N then Ret s
      else Raise (ValueError "source not recognized")
  | _ => Raise (ValueError "source not recognized")
  end.

(** A scope with a fixed state: the selected waveform source, the
    acquisition type, the math definition and the reply to [WFSU?] are the
    arguments; channels 1 and 2 sample 3.5 Mpts, channels 3 and 4 sample
    1.75 Mpts. *)
Definition bench_scope (source type definition : pyval) (wfsu : list pyval) : device :=
  {| dev_values := fun _ cmd =>
       match cmd with
       | "WFSU?" => Ret wfsu
       | _ => Raise (DeviceError "timeout")
       end;
     dev_get := fun _ r =>
       match r with
       | Attr "waveform_source" => Ret source
       | Attr "math_define" => Ret definition
       | Attr "math_vdiv" => Ret (PFloat (1 # 2))
       | Attr "math_vpos" => Ret (PInt 25)
       | Attr "_grid_number" => Ret (PInt 14)
       | Attr "timebase_scale" => Ret (PFloat (1 # 1000000))
       | Attr "timebase_offset" => Ret (PFloat (0 # 1))
       | Query "ACQW?" => Ret type
       | Query "AVGA?" => Ret (PFloat (16 # 1))
       | Query "SAST?" => Ret (PStr "stopped")
       | Query "SARA?" => Ret (PFloat (1000000000 # 1))
       | Query "MSIZ?" => Ret (PFloat (7000000 # 1))
       | Query "SANU? C1" => Ret (PFloat (3500000 # 1))
       | Query "SANU? C3" => Ret (PFloat (1750000 # 1))
       | ChAttr (PStr "C1") "scale" => Ret (PFloat (5 # 100))
       | ChAttr (PStr "C1") "offset" => Ret (PFloat (0 # 1))
       | ChAttr (PStr "C1") "unit" => Ret (PStr "V")
       | _ => Raise (DeviceError "timeout")
       end |}.

(** The reply to [WFSU?] after [waveform_sparsing = 1], [waveform_points = 0]
    and [waveform_first_point = 0]. *)
Definition wfsu_reply : list pyval :=
  [PStr "SP"; PFloat (1 # 1); PStr "NP"; PFloat (0 # 1); PStr "FP"; PFloat (0 # 1)].

Definition eqn_c1_plus_c3 : pyval := PList [PStr "EQN"; PStr "'C1+C3'"].

(** The accesses made by the dict display of [waveform_preamble], in order. *)
Definition fields_accesses : list event :=
  [Values "WFSU?"; Get (Attr "waveform_source"); Get (Query "ACQW?");
   Get (Query "SARA?"); Get (Attr "_grid_number"); Get (Query "SAST?");
   Get (Query "MSIZ?"); Get (Attr "timebase_scale"); Get (Attr "timebase_offset")].

(** [x] is the element right after the first occurrence of [marker] in
    [vals]. *)
Definition follows_first (marker : string) (vals : list pyval) (x : pyval) : Prop :=
  exists i : nat,
    vals !! i = Some (PStr marker)
    /\ (forall j : nat, (j < i)%nat -> vals !! j <> Some (PStr marker))
    /\ vals !! S i = Some x.

(** Where the Y axis of a preamble [p] comes from, for a Y-axis step that
    starts in history [hy] and ends in [h']: the source is read first; for
    the math trace the scale and the position of the math trace are read and
    the unit is [None]; otherwise the source is read again before each of the
    scale, offset and unit of the channel it names. *)
Definition yaxis_from (dev : device) (hy : history) (p : gmap string pyval)
    (h' : history) : Prop :=
  let ws := Get (Attr "waveform_source") in
  exists source,
    dev_get dev hy (Attr "waveform_source") = Ret source
    /\ if py_eq source (PStr "MATH") then
         exists vdiv vpos,
           dev_get dev (hy ++ [ws])%list (Attr "math_vdiv") = Ret vdiv
           /\ dev_get dev (hy ++ [ws; Get (Attr "math_vdiv")])%list (Attr "math_vpos")
              = Ret vpos
           /\ h' = (hy ++ [ws; Get (Attr "math_vdiv"); Get (Attr "math_vpos")])%list
           /\ p !! "ydiv" = Some vdiv
           /\ p !! "yoffset" = Some vpos
           /\ p !! "unit" = Some PNone
       else
         exists c1 c2 c3 scale offset unit,
           let h1 := (hy ++ [ws])%list in
           let h2 := (h1 ++ [ws; Get (ChAttr c1 "scale")])%list in
           let h3 := (h2 ++ [ws; Get (ChAttr c2 "offset")])%list in
           dev_get dev h1 (Attr "waveform_source") = Ret c1
           /\ dev_get dev (h1 ++ [ws])%list (ChAttr c1 "scale") = Ret scale
           /\ dev_get dev h2 (Attr "waveform_source") = Ret c2
           /\ dev_get dev (h2 ++ [ws])%list (ChAttr c2 "offset") = Ret offset
           /\ dev_get dev h3 (Attr "waveform_source") = Ret c3
           /\ dev_get dev (h3 ++ [ws])%list (ChAttr c3 "unit") = Ret unit
           /\ h' = (h3 ++ [ws; Get (ChAttr c3 "unit")])%list
           /\ p !! "ydiv" = Some scale
           /\ p !! "yoffset" = Some offset
           /\ p !! "unit" = Some unit.




(** The query behind a channel number or name. *)
Definition channel_query (v : pyval) : option string :=
  if py_in v [PInt 1; PStr "C1"; PInt 2; PStr "C2"] then Some "SANU? C1"
  else if py_in v [PInt 3; PStr "C3"; PInt 4; PStr "C4"] then Some "SANU? C3"
  else None.

(** The sources [acquisition_sample_size] resolves: the channel numbers, the
    channel names and the math trace. *)
Definition accepted_sources : list pyval :=
  [PInt 1; PInt 2; PInt 3; PInt 4;
   PStr "C1"; PStr "C2"; PStr "C3"; PStr "C4"; PStr "MATH"].

(** ** The minimum interval between commands *)

Module RateLimiter.

(** The limiter: the monotonic clock, the time of the last transmission
    and the transmissions so far, each with its time.  Time is counted in
    microseconds. *)
Record session : Type := Session {
  clock : Z;
  last_write : Z;
  sent : list (Z * string)
}.

(** The default interval: 10 ms. *)
Definition WRITE_INTERVAL_S : Z := 10000.

(** Modelled from the spec: the [write] method of the oscilloscope base
    class, which holds the rate limiter and is not part of this file (this
    file only documents [WRITE_INTERVAL_S]).  Before transmitting, the
    accessor computes the time elapsed since the last transmission and
    sleeps for the remaining deficit, if any.  A sleep lasts at least what
    was asked for; the excess [oversleep] is chosen by the environment. *)
Definition write (interval : Z) (command : string) (oversleep : N) (s : session)
  : session :=
  let elapsed := clock s - last_write s in
  let now :=
    if elapsed <? interval
    then clock s + (interval - elapsed) + Z.of_N oversleep
    else clock s in
  {| clock := now; last_write := now; sent := (sent s ++ [(now, command)])%list |}.

(** Time passing between two commands. *)
Definition elapse (d : N) (s : session) : session :=
  {| clock := clock s + Z.of_N d; last_write := last_write s; sent := sent s |}.

Inductive action : Type :=
  | Command (command : string) (oversleep : N)
  | Elapse (d : N).

Definition step (interval : Z) (s : session) (a : action) : session :=
  match a with
  | Command command oversleep => write interval command oversleep s
  | Elapse d => elapse d s
  end.

Definition run (interval : Z) (actions : list action) (s : session) : session :=
  fold_left (step interval) actions s.

(** A session that has not transmitted anything yet. *)
Definition open_session (now last : Z) : session :=
  {| clock := now; last_write := last; sent := [] |}.



End RateLimiter.

(** ** Benches *)

(** Channel 1 selected, normal acquisition. *)
Definition bench_c1 : device :=
  bench_scope (PStr "C1") (PStr "normal") eqn_c1_plus_c3 wfsu_reply.

(** The math trace [C1+C3] selected, averaging over 16 acquisitions. *)
Definition bench_math : device :=
  bench_scope (PStr "MATH") (PList [PStr "average"; PInt 16]) eqn_c1_plus_c3 wfsu_reply.

(** A source outside the accepted set. *)
Definition bench_c5 : device :=
  bench_scope (PStr "C5") (PStr "normal") eqn_c1_plus_c3 wfsu_reply.

(** A math definition that is not a two-operand expression. *)
Definition bench_fft : device :=
  bench_scope (PStr "MATH") (PStr "normal") (PList [PStr "EQN"; PStr "'FFT(C1)'"])
              wfsu_reply.

Definition bench_c1_preamble : gmap string pyval :=
  list_to_map
    [("sparsing", PFloat (1 # 1)); ("requested_points", PFloat (0 # 1));
     ("first_point", PFloat (0 # 1)); ("transmitted_points", PNone);
     ("source", PStr "C1"); ("type", PStr "normal");
     ("sampling_rate", PFloat (1000000000 # 1)); ("grid_number", PInt 14);
     ("status", PStr "stopped"); ("memory_size", PFloat (7000000 # 1));
     ("xdiv", PFloat (1 # 1000000)); ("xoffset", PFloat (0 # 1));
     ("average", PNone); ("sampled_points", PFloat (3500000 # 1));
     ("ydiv", PFloat (5 # 100)); ("yoffset", PFloat (0 # 1)); ("unit", PStr "V")].

Definition bench_c1_history : history :=
  [Values "WFSU?"; Get (Attr "waveform_source"); Get (Query "ACQW?");
   Get (Query "SARA?"); Get (Attr "_grid_number"); Get (Query "SAST?");
   Get (Query "MSIZ?"); Get (Attr "timebase_scale"); Get (Attr "timebase_offset");
   Get (Attr "waveform_source"); Get (Attr "waveform_source");
   Get (Query "SANU? C1"); Get (Attr "waveform_source");
   Get (Attr "waveform_source"); Get (ChAttr (PStr "C1") "scale");
   Get (Attr "waveform_source"); Get (ChAttr (PStr "C1") "offset");
   Get (Attr "waveform_source"); Get (ChAttr (PStr "C1") "unit")].

Definition bench_math_preamble : gmap string pyval :=
  list_to_map
    [("sparsing", PFloat (1 # 1)); ("requested_points", PFloat (0 # 1));
     ("first_point", PFloat (0 # 1)); ("transmitted_points", PNone);
     ("source", PStr "MATH"); ("type", PList [PStr "average"; PInt 16]);
     ("sampling_rate", PFloat (1000000000 # 1)); ("grid_number", PInt 14);
     ("status", PStr "stopped"); ("memory_size", PFloat (7000000 # 1));
     ("xdiv", PFloat (1 # 1000000)); ("xoffset", PFloat (0 # 1));
     ("average", PFloat (16 # 1)); ("sampled_points", PFloat (1750000 # 1));
     ("ydiv", PFloat (1 # 2)); ("yoffset", PInt 25); ("unit", PNone)].

(** The dict display of the averaging bench, before ["average"] is added. *)
Definition bench_math_fields : gmap string pyval :=
  list_to_map
    [("sparsing", PFloat (1 # 1)); ("requested_points", PFloat (0 # 1));
     ("first_point", PFloat (0 # 1)); ("transmitted_points", PNone);
     ("source", PStr "MATH"); ("type", PList [PStr "average"; PInt 16]);
     ("sampling_rate", PFloat (1000000000 # 1)); ("grid_number", PInt 14);
     ("status", PStr "stopped"); ("memory_size", PFloat (7000000 # 1));
     ("xdiv", PFloat (1 # 1000000)); ("xoffset", PFloat (0 # 1))].

Definition bench_math_history : history :=
  [Values "WFSU?"; Get (Attr "waveform_source"); Get (Query "ACQW?");
   Get (Query "SARA?"); Get (Attr "_grid_number"); Get (Query "SAST?");
   Get (Query "MSIZ?"); Get (Attr "timebase_scale"); Get (Attr "timebase_offset");
   Get (Query "AVGA?"); Get (Attr "waveform_source"); Get (Attr "waveform_source");
   Get (Attr "math_define"); Get (Query "SANU? C1"); Get (Query "SANU? C3");
   Get (Attr "waveform_source"); Get (Attr "math_vdiv"); Get (Attr "math_vpos")].

(** ** More of the driver *)

(** *** Post-processing of the acquisition type *)

(** [len(v)]: strings and lists have a length, the other values have none. *)
Definition py_len (v : pyval) : res nat :=
  match v with
  | PStr s => Ret (String.length s)
  | PList l => Ret (length l)
  | _ => Raise TypeError
  end.

(** [str.lower] on code points below 256: the ASCII capitals and the
    Latin-1 capitals move up by 32. *)
Definition lower_char (c : ascii) : ascii :=
  let n := N_of_ascii c in
  if ((65 <=? n) && (n <=? 90) || (192 <=? n) && (n <=? 214)
      || (216 <=? n) && (n <=? 222))%N
  then ascii_of_N (n + 32) else c.

Fixpoint lower (s : string) : string :=
  match s with
  | EmptyString => EmptyString
  | String c s' => String (lower_char c) (lower s')
  end.

(** [v.lower()] *)
Definition py_lower (v : pyval) : res pyval :=
  match v with
  | PStr s => Ret (PStr (lower s))
  | _ => Raise AttributeError
  end.

(** The blanks that [int] strips from both ends of a string. *)
Definition is_int_space (c : ascii) : bool :=
  let n := N_of_ascii c in
  ((9 <=? n) && (n <=? 13) || (n =? 32) || (n =? 133) || (n =? 160))%N.

Fixpoint lstrip_int (l : list ascii) : list ascii :=
  match l with
  | c :: l' => if is_int_space c then lstrip_int l' else l
  | [] => []
  end.

(** Decimal digits, with single underscores allowed between two digits. *)
Fixpoint int_digits (acc : Z) (after_digit : bool) (l : list ascii) : option Z :=
  match l with
  | [] => if after_digit then Some acc else None
  | c :: l' =>
      let n := N_of_ascii c in
      if ((48 <=? n) && (n <=? 57))%N
      then int_digits (10 * acc + Z.of_N (n - 48)) true l'
      else if (n =? 95)%N && after_digit then int_digits acc false l'
      else None
  end.

(** [int(s)] for a string, in base 10. *)
Definition int_of_str (s : string) : option Z :=
  let l := rev (lstrip_int (rev (lstrip_int (list_ascii_of_string s)))) in
  match l with
  | c :: l' =>
      if (N_of_ascii c =? 45)%N then Z.opp <$> int_digits 0 false l'
      else if (N_of_ascii c =? 43)%N then int_digits 0 false l'
      else int_digits 0 false l
  | [] => None
  end.

(** [int(v)]: a float is truncated towards zero. *)
Definition py_int (v : pyval) : res pyval :=
  match v with
  | PBool b => Ret (PInt (if b then 1 else 0))
  | PInt z => Ret (PInt z)
  | PFloat q => Ret (PInt (Z.quot (Qnum q) (Zpos (Qden q))))
  | PStr s =>
      match int_of_str s with
      | Some z => Ret (PInt z)
      | None => Raise (ValueError "invalid literal for int() with base 10")
      end
  | _ => Raise TypeError
  end.

Definition and_then {A B} (r : res A) (k : A -> res B) : res B :=
  match r with
  | Ret a => k a
  | Raise e => Raise e
  end.

(** [get_process=lambda v: [v[0].lower(), int(v[1])]
                 if len(v) == 2 and v[0] == "AVERAGE" else v]
    of [acquisition_type]. *)
Definition acquisition_type_get_process (v : pyval) : res pyval :=
  and_then (py_len v) (fun n =>
  and_then (if Nat.eqb n 2
            then and_then (py_getitem v 0) (fun v0 => Ret (py_eq v0 (PStr "AVERAGE")))
            else Ret false) (fun average =>
  if average : bool then
    and_then (py_getitem v 0) (fun v0 =>
    and_then (py_lower v0) (fun tag =>
    and_then (py_getitem v 1) (fun v1 =>
    and_then (py_int v1) (fun count =>
    Ret (PList [tag; count])))))
  else Ret v)).

(** *** Reading the timebase *)

(** The [timebase] property: the four readings, in the order of the dict
    display. *)
Definition timebase (dev : device) : M (gmap string pyval) :=
  let! scale := get dev (Attr "timebase_scale") in
  let! offset := get dev (Attr "timebase_offset") in
  let! hor_magnify := get dev (Query "HMAG?") in
  let! hor_position := get dev (Query "HPOS?") in
  ret (<["timebase_hor_position" := hor_position]>
       (<["timebase_hor_magnify" := hor_magnify]>
       (<["timebase_offset" := offset]>
       (<["timebase_scale" := scale]> (∅ : gmap string pyval))))).

(** [acquisition_average = Instrument.control("AVGA?", "AVGA %d", ...,
    validator=strict_discrete_set, values=[4, 16, 32, 64, 128, 256, 512, 1024])],
    its write side. *)
Definition acquisition_average_values : list pyval :=
  [PInt 4; PInt 16; PInt 32; PInt 64; PInt 128; PInt 256; PInt 512; PInt 1024].

Definition acquisition_average_control : control :=
  Control "acquisition_average" (py_format "AVGA " Conv_d "")
          (fun v => strict_discrete_set v acquisition_average_values).

(** *** What a run adds to the history *)

(** An event that is not a write. *)
Definition is_read (e : event) : bool :=
  match e with
  | Wrote _ _ => false
  | _ => true
  end.

(** The three accesses behind a sample size. *)
Definition is_sample_size_access (e : event) : bool :=
  match e with
  | Get (Query cmd) => bool_decide (cmd = "SANU? C1") || bool_decide (cmd = "SANU? C3")
  | Get (Attr name) => bool_decide (name = "math_define")
  | _ => false
  end.

(** A computation that, whatever it returns or raises, only appends events
    satisfying [P] to the history. *)
Definition adds {A} (P : event -> bool) (m : M A) : Prop :=
  forall h, exists l, snd (m h) = (h ++ l)%list /\ forallb P l = true.

(** The command that the setter [c] sends for a value, if it sends one. *)
Definition command_for (c : control) (value : pyval) : option string :=
  match validator c value with
  | Ret v =>
      match set_command c v with
      | Ret command => Some command
      | Raise _ => None
      end
  | Raise _ => None
  end.


(** The command last sent by the setter of the property [name], if any. *)
Definition last_written (name : string) (h : history) : option string :=
  fold_left (fun acc e =>
               match e with
               | Wrote n command => if decide (n = name) then Some command else acc
               | _ => acc
               end) h None.

(** An instrument that keeps the setting it was last sent for [name]: asked
    for [r], the session returns what the instrument and the getter make of
    that command, [reading command]. *)
Definition stores (dev : device) (reading : string -> pyval) (name : string)
    (r : request) : Prop :=
  forall h command, last_written name h = Some command ->
                    dev_get dev h r = Ret (reading command).

(** The keys of a waveform preamble. *)
Definition yaxis_keys : gset string := {[ "ydiv"; "yoffset"; "unit" ]}.

Definition preamble_keys : gset string :=
  list_to_set
    ["sparsing"; "requested_points"; "first_point"; "transmitted_points";
     "source"; "type"; "sampling_rate"; "grid_number"; "status"; "memory_size";
     "xdiv"; "xoffset"; "average"; "sampled_points"; "ydiv"; "yoffset"; "unit"].

(** *** More benches *)

(** A math trace defined in terms of itself. *)
Definition bench_loop : device :=
  bench_scope (PStr "MATH") (PStr "normal") (PList [PStr "EQN"; PStr "'MATH+C1'"])
              wfsu_reply.

(** A reply to [WFSU?] that lacks the marker of the point count. *)
Definition bench_no_np : device :=
  bench_scope (PStr "C1") (PStr "normal") eqn_c1_plus_c3
              [PStr "SP"; PFloat (1 # 1); PStr "FP"; PFloat (0 # 1)].

(** The floats [1e-3], [0.0001234] and [0.000123], exactly. *)
Definition f_1e_3 : Q := 1152921504606847 # 1152921504606846976.
Definition f_1234e_7 : Q := 4552656437391517 # 36893488147419103232.
Definition f_123e_6 : Q := 2268949521066275 # 18446744073709551616.

(** A scope that remembers the timebase it is given and reports each
    setting as the number of three digits its command held; a command
    outside the settings of the bench is reported as its text. *)
Definition echo_reading (command : string) : pyval :=
  match command with
  | "TDIV 1.00E-03S" => PFloat f_1e_3
  | "HMAG 1.23E-04S" => PFloat f_123e_6
  | "TRDL 0.00E+00S" | "HPOS 0.00E+00S" => PFloat 0
  | _ => PStr command
  end.

Definition echo_scope : device :=
  let recall name h :=
    match last_written name h with
    | Some command => Ret (echo_reading command)
    | None => Raise (DeviceError "timeout")
    end in
  {| dev_values := fun _ _ => Raise (DeviceError "timeout");
     dev_get := fun h r =>
       match r with
       | Attr "timebase_scale" => recall "timebase_scale" h
       | Attr "timebase_offset" => recall "timebase_offset" h
       | Query "HMAG?" => recall "timebase_hor_magnify" h
       | Query "HPOS?" => recall "timebase_hor_position" h
       | _ => Raise (DeviceError "timeout")
       end |}.

(** *** The reply to a skew query *)

(** [preprocess_reply=lambda v: v.rstrip('S')] of [skew_factor]: every
    trailing [S] goes. *)
Fixpoint rstrip_S (v : string) : string :=
  match v with
  | EmptyString => EmptyString
  | String c v' =>
      match rstrip_S v' with
      | EmptyString => if (N_of_ascii c =? 83)%N then EmptyString else String c EmptyString
      | r => String c r
      end
  end.

(** A run of [k] letters [S]. *)
Fixpoint run_S (k : nat) : string :=
  match k with
  | O => EmptyString
  | S k' => String "S" (run_S k')
  end.

(** Whether a string ends with the letter [S]. *)
Fixpoint ends_with_S (v : string) : bool :=
  match v with
  | EmptyString => false
  | String c EmptyString => (N_of_ascii c =? 83)%N
  | String _ v' => ends_with_S v'
  end.

(** * Properties *)

(** ** Sanity checks of the value model *)

Example py_eq_int_float : py_eq (PInt 1) (PFloat (1 # 1)) = true.
Proof. reflexivity. Qed.

Example py_min_floats :
  py_min (PFloat (3500000 # 1)) (PFloat (1750000 # 1)) = Ret (PFloat (1750000 # 1)).
Proof. reflexivity. Qed.

Example math_re_sum : math_re "'C1+C2'" = Some ("C1", "C2").
Proof. reflexivity. Qed.

Example math_re_unquoted : math_re "C1+C2" = None.
Proof. reflexivity. Qed.

Example math_re_fft : math_re "'FFT(C1)'" = None.
Proof. reflexivity. Qed.

(** The float constants are the floats of their literals. *)
Example float_1e_9 : option_map Qred (nearest_double (1 # 1000000000)) = Some q_1e_9.
Proof. vm_compute. reflexivity. Qed.

Example float_20e_3 : option_map Qred (nearest_double (20 # 1000)) = Some q_20e_3.
Proof. vm_compute. reflexivity. Qed.

Example float_literals :
  map (fun q => option_map Qred (nearest_double q)) [1 # 1000; 1234 # 10000000; 123 # 1000000]
  = [Some f_1e_3; Some f_1234e_7; Some f_123e_6].
Proof. vm_compute. reflexivity. Qed.

(** Three digits are kept, ties go to the even digit, the bounds of the
    zoom scale print as their literals. *)
Example format_2E_cases :
  map format_2E [f_1234e_7; 9 # 8; 9995 # 1; q_1e_9; q_20e_3; (- (5 # 2))%Q; 0%Q]
  = ["1.23E-04"; "1.12E+00"; "1.00E+04"; "1.00E-09"; "2.00E-02"; "-2.50E+00"; "0.00E+00"].
Proof. vm_compute. reflexivity. Qed.

Example conversion_hmag :
  py_format "HMAG " Conv_2E "S" (PFloat f_1234e_7) = Ret "HMAG 1.23E-04S".
Proof. vm_compute. reflexivity. Qed.

(** An [int] goes through [float]: it is rounded to 53 bits first, and one
    beyond the floats is refused. *)
Example format_int_cases :
  map (py_format "HPOS " Conv_2E "S")
      [PInt 0; PBool true; PInt 100500000000000000000001; PInt (10 ^ 400);
       PInt (2 ^ 1024 - 2 ^ 970 - 1); PInt (2 ^ 1024 - 2 ^ 970); PStr "1"; PNone]
  = [Ret "HPOS 0.00E+00S"; Ret "HPOS 1.00E+00S"; Ret "HPOS 1.01E+23S";
     Raise OverflowError; Ret "HPOS 1.80E+308S"; Raise OverflowError;
     Raise TypeError; Raise TypeError].
Proof. vm_compute. reflexivity. Qed.

Example format_d_cases :
  map (py_format "AVGA " Conv_d "")
      [PInt 16; PFloat (16 # 1); PFloat (169 # 10); PFloat (- (169 # 10))%Q; PBool true;
       PStr "16"; PNone]
  = [Ret "AVGA 16"; Ret "AVGA 16"; Ret "AVGA 16"; Ret "AVGA -16"; Ret "AVGA 1";
     Raise TypeError; Raise TypeError].
Proof. vm_compute. reflexivity. Qed.

(** ** Numbers as text *)

(** Rounding: the result is within half a unit of the quotient. *)
Lemma round_half_even_spec a b :
  0 <= a -> 0 < b ->
  let m := round_half_even a b in
  0 <= m /\ 2 * Z.abs (a - m * b) <= b.
Proof.
  intros Ha Hb m. subst m. unfold round_half_even.
  pose proof (Z.div_mod a b ltac:(lia)) as Hdm.
  pose proof (Z.mod_pos_bound a b Hb) as Hr.
  pose proof (Z.div_pos a b Ha Hb) as Hq.
  destruct (Z.compare_spec (2 * (a mod b)) b) as [E | E | E];
    [destruct (Z.even (a / b)) |..]; split; nia.
Qed.

(** The integer logarithm, given fuel for the size of [n]. *)
Lemma ilog_spec fuel : forall base n,
  2 <= base -> 1 <= n -> Z.log2 n <= Z.of_nat fuel ->
  let k := ilog fuel base n in
  0 <= k /\ base ^ k <= n < base ^ (k + 1).
Proof.
  induction fuel as [| fuel IH]; intros base n Hbase Hn Hfuel; cbn [ilog].
  - assert (n = 1) as ->.
    { destruct (Z.eq_dec n 1) as [| Hne]; [done |].
      assert (1 <= Z.log2 n) by (apply Z.log2_le_pow2; lia). lia. }
    simpl. rewrite Z.pow_1_r. lia.
  - destruct (Z.ltb_spec n base) as [Hlt | Hge].
    + simpl. rewrite Z.pow_1_r. lia.
    + assert (1 <= n / base) as H1 by (apply Z.div_le_lower_bound; lia).
      assert (Z.log2 (n / base) <= Z.of_nat fuel) as Hf.
      { assert (n / base <= n / 2) as Hle by (apply Z.div_le_compat_l; lia).
        apply Z.log2_le_mono in Hle.
        assert (Z.log2 (n / 2) = Z.log2 n - 1) as E.
        { assert (1 <= Z.log2 n) by (apply (Z.log2_le_mono 2 n); lia).
          rewrite <- Z.div2_div, Z.div2_spec, Z.log2_shiftr by lia. lia. }
        lia. }
      destruct (IH base (n / base) Hbase H1 Hf) as (Hk & Hlo & Hhi).
      set (k := ilog fuel base (n / base)) in *.
      pose proof (Z.div_mod n base ltac:(lia)) as Hdm.
      pose proof (Z.mod_pos_bound n base ltac:(lia)) as Hr.
      replace (1 + k + 1) with (Z.succ (k + 1)) by lia.
      replace (1 + k) with (Z.succ k) by lia.
      rewrite !Z.pow_succ_r by lia.
      split; [lia |]. nia.
Qed.

(** The exponent [k] of a positive fraction:
    [base ^ k <= n / d < base ^ (k + 1)], stated without division. *)
Lemma floor_log_spec base n d :
  2 <= base -> 0 < n -> 0 < d ->
  let k := floor_log base n d in
  (0 <= k -> d * base ^ k <= n < d * base ^ (k + 1))
  /\ (k < 0 -> d <= n * base ^ (- k) /\ n * base ^ (- k - 1) < d).
Proof.
  intros Hbase Hn Hd. unfold floor_log.
  destruct (ilog_spec (Z.to_nat (Z.log2 n)) base n Hbase ltac:(lia))
    as (Hkn & Hnlo & Hnhi); [rewrite Z2Nat.id; [lia | apply Z.log2_nonneg] |].
  destruct (ilog_spec (Z.to_nat (Z.log2 d)) base d Hbase ltac:(lia))
    as (Hkd & Hdlo & Hdhi); [rewrite Z2Nat.id; [lia | apply Z.log2_nonneg] |].
  set (kn := ilog _ base n) in *. set (kd := ilog _ base d) in *.
  set (c := kn - kd).
  assert (forall i j, 0 <= i -> 0 <= j -> base ^ (i + j) = base ^ i * base ^ j) as Hadd
    by (intros; apply Z.pow_add_r; lia).
  assert (forall i, 0 <= i -> 0 < base ^ i) as Hpos by (intros; apply Z.pow_pos_nonneg; lia).
  unfold scaled.
  destruct (Z.leb_spec 0 c) as [Hc | Hc].
  - (* c >= 0 *)
    assert (kn = kd + c) as Ekn by lia.
    pose proof (Hpos c Hc). pose proof (Hpos kd Hkd).
    destruct (Z.leb_spec (d * base ^ c) n) as [Ht | Ht]; cbn zeta.
    + split; [| lia]. intros _. split; [done |].
      rewrite (Hadd c 1), Z.pow_1_r by lia.
      rewrite Ekn, <- Z.add_assoc, (Hadd kd (c + 1)), (Hadd c 1), Z.pow_1_r in Hnhi by lia.
      rewrite (Hadd kd 1), Z.pow_1_r in Hdhi by lia.
      nia.
    + rewrite Ekn, (Hadd kd c) in Hnlo by lia.
      rewrite (Hadd kd 1), Z.pow_1_r in Hdhi by lia.
      split.
      * intros Hk. replace (c - 1 + 1) with c by lia. split; [| lia].
        assert (c = (c - 1) + 1) as Ec by lia.
        rewrite Ec, (Hadd (c - 1) 1), Z.pow_1_r in Hnlo, Ht by lia.
        pose proof (Hpos (c - 1) ltac:(lia)).
        nia.
      * intros Hk. assert (c = 0) as E0 by lia. rewrite E0 in *.
        replace (- (0 - 1)) with 1 by lia. replace (- (0 - 1) - 1) with 0 by lia.
        rewrite Z.pow_1_r, Z.pow_0_r in *. nia.
  - (* c < 0 *)
    assert (kd = kn + - c) as Ekd by lia.
    pose proof (Hpos (- c) ltac:(lia)). pose proof (Hpos kn Hkn).
    destruct (Z.leb_spec d (n * base ^ (- c))) as [Ht | Ht]; cbn zeta.
    + split; [lia |]. intros _. split; [done |].
      assert (- c = (- c - 1) + 1) as Ec by lia.
      rewrite Ekd, (Hadd kn (- c)) in Hdlo by lia.
      rewrite Ec, (Hadd (- c - 1) 1), Z.pow_1_r in Hdlo by lia.
      rewrite (Hadd kn 1), Z.pow_1_r in Hnhi by lia.
      pose proof (Hpos (- c - 1) ltac:(lia)).
      nia.
    + split; [lia |]. intros _.
      replace (- (c - 1)) with (- c + 1) by lia.
      replace (- c + 1 - 1) with (- c) by lia.
      split; [| done].
      rewrite (Hadd (- c) 1), Z.pow_1_r by lia.
      rewrite Ekd, <- Z.add_assoc, (Hadd kn (- c + 1)), (Hadd (- c) 1), Z.pow_1_r in Hdhi by lia.
      nia.
Qed.

(** Scaling keeps a positive fraction positive. *)
Lemma scaled_pos base n d k :
  0 < base -> 0 < n -> 0 < d -> 0 < (scaled base n d k).1 /\ 0 < (scaled base n d k).2.
Proof.
  intros Hb Hn Hd. unfold scaled.
  destruct (Z.leb_spec 0 k); cbn [fst snd]; split; try done;
    apply Z.mul_pos_pos; try done; apply Z.pow_pos_nonneg; lia.
Qed.

(** Scaling by one more power of ten. *)
Lemma scaled_succ n d k :
  0 < n -> 0 < d ->
  (scaled 10 n d (k + 1)).1 * (scaled 10 n d k).2
  = 10 * (scaled 10 n d k).1 * (scaled 10 n d (k + 1)).2.
Proof.
  intros Hn Hd. unfold scaled.
  destruct (Z.leb_spec 0 k), (Z.leb_spec 0 (k + 1)); cbn [fst snd]; try lia.
  - rewrite Z.pow_add_r, Z.pow_1_r by lia. ring.
  - assert (k = -1) as -> by lia. change (-1 + 1) with 0. change (- -1) with 1.
    rewrite Z.pow_0_r, Z.pow_1_r. ring.
  - replace (- k) with (- (k + 1) + 1) by lia.
    rewrite Z.pow_add_r, Z.pow_1_r by lia. ring.
Qed.

(** Scaled by its exponent, a positive fraction lies between 100 and 1000. *)
Lemma floor_log_scaled n d :
  0 < n -> 0 < d ->
  let e := floor_log 10 n d in
  100 * (scaled 10 n d (2 - e)).2 <= (scaled 10 n d (2 - e)).1
  /\ (scaled 10 n d (2 - e)).1 < 1000 * (scaled 10 n d (2 - e)).2.
Proof.
  intros Hn Hd e.
  destruct (floor_log_spec 10 n d ltac:(lia) Hn Hd) as [Hnonneg Hneg].
  fold e in Hnonneg, Hneg.
  assert (forall i, 0 <= i -> 0 < 10 ^ i) as Hpos by (intros; apply Z.pow_pos_nonneg; lia).
  unfold scaled.
  destruct (Z.leb_spec 0 (2 - e)) as [H2 | H2]; cbn [fst snd].
  - destruct (Z_lt_le_dec e 0) as [He | He].
    + destruct (Hneg He) as [Hlo Hhi].
      replace (2 - e) with ((- e - 1) + 3) by lia.
      rewrite Z.pow_add_r by lia.
      replace (- e) with ((- e - 1) + 1) in Hlo by lia.
      rewrite Z.pow_add_r, Z.pow_1_r in Hlo by lia.
      change (10 ^ 3) with 1000.
      pose proof (Hpos (- e - 1) ltac:(lia)). nia.
    + destruct (Hnonneg He) as [Hlo Hhi].
      assert (e = 0 \/ e = 1 \/ e = 2) as [-> | [-> | ->]] by lia; simpl in *; lia.
  - destruct (Hnonneg ltac:(lia)) as [Hlo Hhi].
    replace (- (2 - e)) with (e - 2) by lia.
    replace e with ((e - 2) + 2) in Hlo by lia.
    replace (e + 1) with ((e - 2) + 3) in Hhi by lia.
    rewrite Z.pow_add_r in Hlo, Hhi by lia.
    change (10 ^ 2) with 100 in Hlo. change (10 ^ 3) with 1000 in Hhi.
    pose proof (Hpos (e - 2) ltac:(lia)). nia.
Qed.

(** The three digits [m] and the exponent [e] of a positive [n / d]:
    [m * 10 ^ (e - 2)] is within half a unit of the third digit. *)
Lemma digits_2E_spec n d :
  0 < n -> 0 < d ->
  let (m, e) := digits_2E n d in
  let (a, b) := scaled 10 n d (2 - e) in
  100 <= m <= 999 /\ 2 * Z.abs (a - m * b) <= b.
Proof.
  intros Hn Hd. unfold digits_2E.
  set (e := floor_log 10 n d).
  pose proof (floor_log_scaled n d Hn Hd) as Hrange. cbv zeta in Hrange. fold e in Hrange.
  pose proof (scaled_pos 10 n d (2 - e) ltac:(lia) Hn Hd) as Hposs.
  pose proof (scaled_succ n d (2 - (e + 1)) Hn Hd) as Hsucc.
  replace (2 - (e + 1) + 1) with (2 - e) in Hsucc by lia.
  pose proof (scaled_pos 10 n d (2 - (e + 1)) ltac:(lia) Hn Hd) as Hposs'.
  destruct (scaled 10 n d (2 - e)) as [a b] eqn:E.
  rewrite ?E in Hrange. cbn [fst snd] in *.
  destruct (round_half_even_spec a b ltac:(lia) ltac:(lia)) as [Hm Herr].
  set (m := round_half_even a b) in *.
  assert (100 <= m <= 1000) as Hm'.
  { destruct Hrange as [Hlo Hhi]. destruct Hposs as [Ha Hb].
    destruct (Z.abs_spec (a - m * b)) as [[_ Eabs] | [_ Eabs]]; rewrite Eabs in Herr.
    - split.
      + destruct (Z_lt_le_dec m 100) as [Hlt | ]; [| done].
        assert (m * b <= 99 * b) by (apply Z.mul_le_mono_nonneg_r; lia). lia.
      + destruct (Z_lt_le_dec 1000 m) as [Hlt | ]; [| done].
        assert (1001 * b <= m * b) by (apply Z.mul_le_mono_nonneg_r; lia). lia.
    - split.
      + destruct (Z_lt_le_dec m 100) as [Hlt | ]; [| done].
        assert (m * b <= 99 * b) by (apply Z.mul_le_mono_nonneg_r; lia). lia.
      + destruct (Z_lt_le_dec 1000 m) as [Hlt | ]; [| done].
        assert (1001 * b <= m * b) by (apply Z.mul_le_mono_nonneg_r; lia). lia. }
  destruct (Z.eqb_spec m 1000) as [E1000 | Hne].
  - destruct (scaled 10 n d (2 - (e + 1))) as [a' b']. simpl in *.
    split; [lia |]. rewrite E1000 in Herr. nia.
  - rewrite E. split; [lia | done].
Qed.

(** ** The session monad *)

Lemma bind_Ret_inv {A B} (m : M A) (k : A -> M B) h b h2 :
  bind m k h = (Ret b, h2) ->
  exists a h1, m h = (Ret a, h1) /\ k a h1 = (Ret b, h2).
Proof.
  unfold bind. destruct (m h) as [[e | a] h1]; [discriminate |].
  intros Hk. exists a, h1. split; [reflexivity | exact Hk].
Qed.

Lemma bind_Raise_inv {A B} (m : M A) (k : A -> M B) h e h2 :
  bind m k h = (Raise e, h2) ->
  m h = (Raise e, h2) \/ exists a h1, m h = (Ret a, h1) /\ k a h1 = (Raise e, h2).
Proof.
  unfold bind. destruct (m h) as [[e' | a] h1].
  - intros [= -> ->]. by left.
  - intros Hk. right. by exists a, h1.
Qed.

Lemma bind_ret_l {A B} (a : A) (k : A -> M B) h : bind (ret a) k h = k a h.
Proof. reflexivity. Qed.

Lemma bind_run_Ret {A B} (m : M A) (k : A -> M B) h a h1 :
  m h = (Ret a, h1) -> bind m k h = k a h1.
Proof. unfold bind. by intros ->. Qed.

Lemma bind_run_Raise {A B} (m : M A) (k : A -> M B) h e h1 :
  m h = (Raise e, h1) -> bind m k h = (Raise e, h1).
Proof. unfold bind. by intros ->. Qed.

Lemma bind_assoc {A B C} (m : M A) (f : A -> M B) (g : B -> M C) h :
  bind (bind m f) g h = bind m (fun x => bind (f x) g) h.
Proof. unfold bind. by destruct (m h) as [[e | a] h1]. Qed.

Lemma bind_ext {A B} (m : M A) (k1 k2 : A -> M B) h :
  (forall a h1, k1 a h1 = k2 a h1) -> bind m k1 h = bind m k2 h.
Proof. intros Hk. unfold bind. destruct (m h) as [[e | a] h1]; [done | apply Hk]. Qed.

Lemma lift_inv {A} (r : res A) h x h1 : lift r h = (x, h1) -> r = x /\ h1 = h.
Proof. by intros [= -> ->]. Qed.

Lemma ret_inv {A} (a : A) h x h1 : ret a h = (x, h1) -> x = Ret a /\ h1 = h.
Proof. by intros [= <- <-]. Qed.

Lemma get_inv dev r h x h1 :
  get dev r h = (x, h1) -> dev_get dev h r = x /\ h1 = (h ++ [Get r])%list.
Proof. by intros [= -> ->]. Qed.

Lemma values_inv dev cmd h x h1 :
  values dev cmd h = (x, h1) ->
  dev_values dev h cmd = x /\ h1 = (h ++ [Values cmd])%list.
Proof. by intros [= -> ->]. Qed.

(** Split a successful run into the successful runs of its steps. *)
Ltac bind_inv H :=
  repeat (let a := fresh "v" in let h := fresh "h" in let E := fresh "E" in
          apply bind_Ret_inv in H as (a & h & E & H)).

(** ** Lists of replies *)

(** [l.index(x)] for a string marker finds its first occurrence. *)
Lemma py_eq_PStr v s : py_eq v (PStr s) = true <-> v = PStr s.
Proof.
  destruct v; simpl; try (split; [discriminate | congruence]).
  case_decide; split; congruence.
Qed.

Lemma py_list_index_first marker vals i :
  py_list_index (PStr marker) vals = Ret i ->
  vals !! i = Some (PStr marker)
  /\ forall j : nat, (j < i)%nat -> vals !! j <> Some (PStr marker).
Proof.
  revert i. induction vals as [| y vals IH]; simpl; intros i; [discriminate |].
  destruct (py_eq y (PStr marker)) eqn:E.
  - intros [= <-]. apply py_eq_PStr in E as ->. split; [done | lia].
  - destruct (py_list_index (PStr marker) vals) as [e | i'] eqn:Hi; [discriminate |].
    intros [= <-]. destruct (IH _ eq_refl) as [Hl Hf]. split; [done |].
    intros [| j] Hj; simpl.
    + intros [= ->]. simpl in E. by case_decide.
    + apply Hf. lia.
Qed.

Lemma follows_first_intro marker vals i x :
  py_list_index (PStr marker) vals = Ret i ->
  py_list_get vals (i + 1) = Ret x ->
  follows_first marker vals x.
Proof.
  intros Hi Hx. apply py_list_index_first in Hi as [Hl Hf].
  exists i. repeat split; [done | done |].
  unfold py_list_get in Hx. replace (i + 1)%nat with (S i) in Hx by lia.
  destruct (vals !! S i); congruence.
Qed.

Lemma follows_first_unique marker vals x y :
  follows_first marker vals x -> follows_first marker vals y -> x = y.
Proof.
  intros (i & Hi & Hfi & Hx) (j & Hj & Hfj & Hy).
  assert (i = j) as ->.
  { destruct (Nat.lt_trichotomy i j) as [Hlt | [-> | Hgt]]; [| done |].
    - by destruct (Hfj _ Hlt).
    - by destruct (Hfi _ Hgt). }
  congruence.
Qed.

Lemma follows_first_at marker before x rest :
  Forall (fun y => y <> PStr marker) before ->
  follows_first marker (before ++ PStr marker :: x :: rest) x.
Proof.
  intros Hb. exists (length before). repeat split.
  - by rewrite list_lookup_middle.
  - intros j Hj. rewrite lookup_app_l by done. intros Hl.
    by apply (proj1 (Forall_lookup _ _) Hb j _ Hl).
  - rewrite lookup_app_r by lia. by replace (S (length before) - length before)%nat with 1%nat by lia.
Qed.

Lemma follows_first_mid marker before mid x rest :
  Forall (fun y => y <> PStr marker) (before ++ mid) ->
  follows_first marker (before ++ mid ++ PStr marker :: x :: rest) x.
Proof. intros Hb. rewrite app_assoc. by apply follows_first_at. Qed.

(** ** The pattern of a math definition *)

Lemma operator_not_word c : is_operator c = true -> is_word_char c = false.
Proof.
  destruct c as [b0 b1 b2 b3 b4 b5 b6 b7].
  destruct b0, b1, b2, b3, b4, b5, b6, b7; vm_compute; congruence.
Qed.

Lemma quote_not_word c : is_quote c = true -> is_word_char c = false.
Proof.
  destruct c as [b0 b1 b2 b3 b4 b5 b6 b7].
  destruct b0, b1, b2, b3, b4, b5, b6, b7; vm_compute; congruence.
Qed.

(** A word followed by a character outside the word class is split exactly
    there. *)
Lemma span_word_app w c r :
  is_word w = true -> is_word_char c = false ->
  span_word (w ++ String c r) = (w, String c r).
Proof.
  intros Hw Hc. induction w as [| a w IH]; simpl.
  - by rewrite Hc.
  - simpl in Hw. apply andb_true_iff in Hw as [Ha Hw].
    rewrite Ha, (IH Hw). reflexivity.
Qed.

Lemma span_word_inv s w r :
  span_word s = (w, r) ->
  s = w ++ r /\ is_word w = true
  /\ match r with String c _ => is_word_char c = false | EmptyString => True end.
Proof.
  revert w r. induction s as [| a s IH]; simpl; intros w r.
  - intros [= <- <-]. done.
  - destruct (is_word_char a) eqn:Ha.
    + destruct (span_word s) as [w' r'] eqn:Hs. intros [= <- <-].
      destruct (IH _ _ eq_refl) as (-> & Hw & Hr).
      simpl. rewrite Ha, Hw. done.
    + intros [= <- <-]. simpl. by rewrite Ha.
Qed.

(** [math_re] returns the groups of the pattern, and only those. *)
Lemma math_re_spec s g1 g2 :
  math_re s = Some (g1, g2) <-> math_pattern s g1 g2.
Proof.
  split.
  - destruct s as [| q s1]; [done |]. simpl.
    destruct (is_quote q) eqn:Hq; [| done].
    destruct (span_word s1) as [w1 s2] eqn:H1.
    destruct w1 as [| a1 w1]; [done |].
    destruct s2 as [| op s3]; [done |].
    destruct (is_operator op) eqn:Hop; [| done].
    destruct (span_word s3) as [w2 s4] eqn:H2.
    destruct w2 as [| a2 w2]; [done |].
    destruct s4 as [| q' rest]; [done |].
    destruct (is_quote q') eqn:Hq'; [| done].
    intros [= <- <-].
    apply span_word_inv in H1 as (-> & Hw1 & _).
    apply span_word_inv in H2 as (-> & Hw2 & _).
    exists q, op, q', rest. done.
  - intros (q & op & q' & rest & -> & Hq & Hq' & Hop & Hn1 & Hw1 & Hn2 & Hw2).
    simpl. rewrite Hq.
    rewrite (span_word_app g1 op _ Hw1 (operator_not_word _ Hop)).
    destruct g1 as [| a1 g1]; [done |].
    rewrite Hop.
    rewrite (span_word_app g2 q' _ Hw2 (quote_not_word _ Hq')).
    destruct g2 as [| a2 g2]; [done |].
    by rewrite Hq'.
Qed.

Lemma math_re_None s :
  math_re s = None <-> forall g1 g2, ~ math_pattern s g1 g2.
Proof.
  split.
  - intros Hn g1 g2 Hp. apply math_re_spec in Hp. congruence.
  - intros Hn. destruct (math_re s) as [[g1 g2] |] eqn:E; [| done].
    exfalso. apply (Hn g1 g2), math_re_spec, E.
Qed.

(** ** Sample size of a source *)

Section SampleSize.

Variable dev : device.
Variable sanitize_source : string -> res string.

Local Abbreviation sample_size := (acquisition_sample_size dev sanitize_source).
Local Abbreviation sanitized := (sanitized sanitize_source).

Lemma sample_size_unfold depth source :
  sample_size (S depth) source =
  (let! source := lift (sanitized source) in
   if py_in source [PInt 1; PStr "C1"] then acquisition_sample_size_c1 dev
   else if py_in source [PInt 2; PStr "C2"] then acquisition_sample_size_c2 dev
   else if py_in source [PInt 3; PStr "C3"] then acquisition_sample_size_c3 dev
   else if py_in source [PInt 4; PStr "C4"] then acquisition_sample_size_c4 dev
   else if py_eq source (PStr "MATH") then
     let! definition := math_define dev in
     let! math_define := lift (py_getitem definition 1) in
     let! mtch := lift (re_match math_define) in
     let! g1 := lift (match_group1 mtch) in
     let! size1 := sample_size depth g1 in
     let! g2 := lift (match_group2 mtch) in
     let! size2 := sample_size depth g2 in
     lift (py_min size1 size2)
   else raise (ValueError invalid_source_message)).
Proof. reflexivity. Qed.

(** The math branch, once the source has been recognised as the math trace. *)
Lemma sample_size_MATH depth source h :
  sanitized source = Ret (PStr "MATH") ->
  sample_size (S depth) source h =
  (let! definition := math_define dev in
   let! math_define := lift (py_getitem definition 1) in
   let! mtch := lift (re_match math_define) in
   let! g1 := lift (match_group1 mtch) in
   let! size1 := sample_size depth g1 in
   let! g2 := lift (match_group2 mtch) in
   let! size2 := sample_size depth g2 in
   lift (py_min size1 size2)) h.
Proof.
  intros Hs. rewrite sample_size_unfold.
  unfold bind at 1. unfold lift at 1. rewrite Hs. reflexivity.
Qed.

Lemma py_in_cons x y l : py_in x (y :: l) = py_eq x y || py_in x l.
Proof. reflexivity. Qed.

Lemma py_in_nil x : py_in x [] = false.
Proof. reflexivity. Qed.

(** On numbers, [min] returns one of its arguments, below both. *)
Lemma py_min_numbers a b x y :
  num_of a = Some x -> num_of b = Some y ->
  exists m z, py_min a b = Ret m /\ (m = a \/ m = b)
              /\ num_of m = Some z /\ (z <= x)%Q /\ (z <= y)%Q.
Proof.
  intros Ha Hb. unfold py_min.
  assert (py_lt b a = Ret (negb (Qle_bool x y))) as ->.
  { destruct a, b; simpl in *; try discriminate;
      injection Ha as <-; injection Hb as <-; reflexivity. }
  destruct (Qle_bool x y) eqn:E; simpl.
  - exists a, x. apply Qle_bool_iff in E. repeat split; auto. apply Qle_refl.
  - exists b, y. repeat split; auto; [| apply Qle_refl].
    apply Qlt_le_weak, Qnot_le_lt. intros Hle.
    apply Qle_bool_iff in Hle. congruence.
Qed.

(** A channel is resolved by one query, at any depth that allows the call. *)
Lemma sample_size_channel depth source v q h :
  sanitized source = Ret v -> channel_query v = Some q ->
  sample_size (S depth) source h = get dev (Query q) h.
Proof.
  intros Hs Hq. rewrite sample_size_unfold. unfold bind, lift. rewrite Hs.
  unfold channel_query in Hq. rewrite !py_in_cons, !py_in_nil, !orb_false_r in *.
  destruct (py_eq v (PInt 1)); [by injection Hq as <- |].
  destruct (py_eq v (PStr "C1")); [by injection Hq as <- |].
  destruct (py_eq v (PInt 2)); [by injection Hq as <- |].
  destruct (py_eq v (PStr "C2")); [by injection Hq as <- |].
  destruct (py_eq v (PInt 3)); [by injection Hq as <- |].
  destruct (py_eq v (PStr "C3")); [by injection Hq as <- |].
  destruct (py_eq v (PInt 4)); [by injection Hq as <- |].
  destruct (py_eq v (PStr "C4")); [by injection Hq as <- |].
  discriminate.
Qed.

(** C3: channels 1 and 2 report the same sample size, and so do channels 3
    and 4: from any session, the accessors of a pair issue the identical
    query ([SANU? C1], respectively [SANU? C3]), hence return the same
    reading and leave the same history; the same holds when the channels
    are resolved by number or by name through [acquisition_sample_size]. *)
Theorem shared_adc_sample_size (depth : nat) (h : history) :
  sanitize_source "C1" = Ret "C1" -> sanitize_source "C2" = Ret "C2" ->
  sanitize_source "C3" = Ret "C3" -> sanitize_source "C4" = Ret "C4" ->
  acquisition_sample_size_c1 dev h = acquisition_sample_size_c2 dev h
  /\ acquisition_sample_size_c3 dev h = acquisition_sample_size_c4 dev h
  /\ acquisition_sample_size_c1 dev h
     = (dev_get dev h (Query "SANU? C1"), (h ++ [Get (Query "SANU? C1")])%list)
  /\ acquisition_sample_size_c3 dev h
     = (dev_get dev h (Query "SANU? C3"), (h ++ [Get (Query "SANU? C3")])%list)
  /\ sample_size depth (PInt 1) h = sample_size depth (PInt 2) h
  /\ sample_size depth (PInt 3) h = sample_size depth (PInt 4) h
  /\ sample_size depth (PStr "C1") h = sample_size depth (PStr "C2") h
  /\ sample_size depth (PStr "C3") h = sample_size depth (PStr "C4") h.
Proof.
  intros H1 H2 H3 H4.
  repeat split; try reflexivity;
    (destruct depth as [| depth]; [reflexivity |]);
    rewrite !sample_size_unfold; unfold bind, lift; simpl;
    rewrite ?H1, ?H2, ?H3, ?H4; reflexivity.
Qed.

(** C7: a source that, after sanitisation, is none of 1..4, C1..C4 and MATH
    is rejected with the invalid-argument error whose message says
    "must be 1, 2, 3, 4 or C1, C2, C3, C4, MATH", and the history is
    unchanged: no query is issued. *)
Theorem invalid_source_rejected (depth : nat) (source v : pyval) (h : history) :
  sanitized source = Ret v ->
  py_in v accepted_sources = false ->
  sample_size (S depth) source h = (Raise (ValueError invalid_source_message), h)
  /\ invalid_source_message
     = "Invalid source: " ++ "must be 1, 2, 3, 4 or C1, C2, C3, C4, MATH" ++ ".".
Proof.
  intros Hs Hin. split; [| reflexivity].
  unfold accepted_sources in Hin.
  rewrite !py_in_cons, !orb_false_iff in Hin.
  destruct Hin as (E1 & E2 & E3 & E4 & E5 & E6 & E7 & E8 & E9 & _).
  rewrite sample_size_unfold. unfold bind, lift. rewrite Hs.
  rewrite !py_in_cons, !py_in_nil.
  rewrite E1, E2, E3, E4, E5, E6, E7, E8, E9. reflexivity.
Qed.

(** C8: when the stored math definition is a string that does not match the
    pattern, resolving the math trace stops with the attribute error of
    calling [group] on a failed match, right after the definition has been
    read; it is not the invalid-argument error of the source check. *)
Theorem malformed_math_definition (depth : nat) (source definition : pyval)
    (s : string) (h : history) :
  sanitized source = Ret (PStr "MATH") ->
  dev_get dev h (Attr "math_define") = Ret definition ->
  py_getitem definition 1 = Ret (PStr s) ->
  (forall g1 g2, ~ math_pattern s g1 g2) ->
  sample_size (S depth) source h
  = (Raise AttributeError, (h ++ [Get (Attr "math_define")])%list)
  /\ is_invalid_argument AttributeError = false
  /\ AttributeError <> ValueError invalid_source_message.
Proof.
  intros Hs Hd Hi Hp. split; [| done].
  apply math_re_None in Hp.
  rewrite (sample_size_MATH _ _ _ Hs).
  unfold bind, lift, math_define, get. rewrite Hd, Hi. simpl. rewrite Hp.
  reflexivity.
Qed.

End SampleSize.

(** ** The waveform preamble *)

Section Preamble.

Variable dev : device.
Variable sanitize_source : string -> res string.

Local Abbreviation sample_size := (acquisition_sample_size dev sanitize_source).
Local Abbreviation sanitized := (sanitized sanitize_source).
Local Abbreviation ws := (Get (Attr "waveform_source")).

Lemma waveform_preamble_phases depth h :
  waveform_preamble dev sanitize_source depth h =
  (let! preamble := preamble_fields dev in
   let! average := preamble_average dev preamble in
   let preamble := <["average" := average]> preamble in
   let! selected := waveform_source dev in
   let! _ := lift (strict_discrete_set selected waveform_sources) in
   let! selected' := waveform_source dev in
   let! sampled_points := sample_size depth selected' in
   let preamble := <["sampled_points" := sampled_points]> preamble in
   _fill_yaxis_preamble dev (Some preamble)) h.
Proof.
  unfold waveform_preamble, preamble_fields.
  symmetry.
  do 15 (rewrite bind_assoc; apply bind_ext; intros ? ?).
  rewrite bind_ret_l.
  unfold preamble_average.
  do 2 (rewrite bind_assoc; apply bind_ext; intros ? ?).
  reflexivity.
Qed.

(** What a successful dict display has read and stored. *)
Lemma preamble_fields_inv h pre h1 :
  preamble_fields dev h = (Ret pre, h1) ->
  exists vals sparsing requested first type,
    dev_values dev h "WFSU?" = Ret vals
    /\ follows_first "SP" vals sparsing
    /\ follows_first "NP" vals requested
    /\ follows_first "FP" vals first
    /\ dev_get dev (h ++ [Values "WFSU?"; ws])%list (Query "ACQW?") = Ret type
    /\ h1 = (h ++ fields_accesses)%list
    /\ pre !! "sparsing" = Some sparsing
    /\ pre !! "requested_points" = Some requested
    /\ pre !! "first_point" = Some first
    /\ pre !! "transmitted_points" = Some PNone
    /\ pre !! "type" = Some type.
Proof.
  unfold preamble_fields. intros H. bind_inv H.
  apply ret_inv in H as [[= ->] ->].
  repeat match goal with
         | E : lift _ _ = _ |- _ => apply lift_inv in E as [E ->]
         | E : values _ _ _ = _ |- _ => apply values_inv in E as [E ->]
         | E : get _ _ _ = _ |- _ => apply get_inv in E as [E ->]
         | E : waveform_source _ _ = _ |- _ => apply get_inv in E as [E ->]
         | E : acquisition_type _ _ = _ |- _ => apply get_inv in E as [E ->]
         | E : acquisition_sampling_rate _ _ = _ |- _ => apply get_inv in E as [E ->]
         | E : acquisition_status _ _ = _ |- _ => apply get_inv in E as [E ->]
         | E : memory_size _ _ = _ |- _ => apply get_inv in E as [E ->]
         end.
  rewrite <- !app_assoc in *. simpl in *.
  eexists _, _, _, _, _.
  repeat split; eauto using follows_first_intro.
Qed.

(** The Y-axis step: where its three fields come from, and that it leaves
    every other field alone. *)
Lemma fill_yaxis_inv pre h p h' :
  _fill_yaxis_preamble dev (Some pre) h = (Ret p, h') ->
  yaxis_from dev h p h'
  /\ forall k, k <> "ydiv" -> k <> "yoffset" -> k <> "unit" -> p !! k = pre !! k.
Proof.
  unfold _fill_yaxis_preamble, yaxis_from. intros H.
  apply bind_Ret_inv in H as (source & h0 & E0 & H).
  apply get_inv in E0 as [E0 ->].
  destruct (py_eq source (PStr "MATH")) eqn:Em.
  - bind_inv H. apply ret_inv in H as [[= ->] ->].
    apply get_inv in E as [E ->]. apply get_inv in E1 as [E1 ->].
    rewrite <- !app_assoc in *. simpl in *.
    split.
    + exists source. rewrite Em. split; [done |].
      exists v, v0. by simplify_map_eq.
    + intros k ? ? ?. by rewrite !lookup_insert_ne.
  - bind_inv H. apply ret_inv in H as [[= ->] ->].
    repeat match goal with
           | E : get _ _ _ = _ |- _ => apply get_inv in E as [E ->]
           | E : waveform_source _ _ = _ |- _ => apply get_inv in E as [E ->]
           end.
    rewrite <- !app_assoc in *. simpl in *.
    split.
    + exists source. rewrite Em. split; [done |].
      exists v, v1, v3, v0, v2, v4. simpl.
      rewrite <- !app_assoc. simpl.
      by simplify_map_eq.
    + intros k ? ? ?. by rewrite !lookup_insert_ne.
Qed.

(** The value of ["average"], given the acquisition type stored in the
    preamble. *)
Lemma preamble_average_inv pre type h average h1 :
  pre !! "type" = Some type ->
  preamble_average dev pre h = (Ret average, h1) ->
  exists tag,
    py_getitem type 0 = Ret tag
    /\ if py_eq tag (PStr "average")
       then dev_get dev h (Query "AVGA?") = Ret average
            /\ h1 = (h ++ [Get (Query "AVGA?")])%list
       else average = PNone /\ h1 = h.
Proof.
  intros Ht. unfold preamble_average, py_dict_get. rewrite Ht. intros H.
  bind_inv H. apply lift_inv in E as [[= <-] ->]. apply lift_inv in E0 as [E0 ->].
  exists v0. split; [done |].
  destruct (py_eq v0 (PStr "average")).
  - by apply get_inv in H as [H ->].
  - by apply ret_inv in H as [[= ->] ->].
Qed.

(** A successful assembly, step by step. *)
Lemma waveform_preamble_inv depth h p h' :
  waveform_preamble dev sanitize_source depth h = (Ret p, h') ->
  exists pre average selected selected' sampled h_avg h_size,
    preamble_fields dev h = (Ret pre, (h ++ fields_accesses)%list)
    /\ preamble_average dev pre (h ++ fields_accesses)%list = (Ret average, h_avg)
    /\ dev_get dev h_avg (Attr "waveform_source") = Ret selected
    /\ py_in selected waveform_sources = true
    /\ dev_get dev (h_avg ++ [ws])%list (Attr "waveform_source") = Ret selected'
    /\ sample_size depth selected' (h_avg ++ [ws; ws])%list = (Ret sampled, h_size)
    /\ _fill_yaxis_preamble dev
         (Some (<["sampled_points" := sampled]> (<["average" := average]> pre))) h_size
       = (Ret p, h').
Proof.
  rewrite waveform_preamble_phases. intros H.
  do 6 (let a := fresh "v" in let h := fresh "h" in let E := fresh "E" in
        apply bind_Ret_inv in H as (a & h & E & H)).
  destruct (preamble_fields_inv _ _ _ E) as (? & ? & ? & ? & ? & _ & _ & _ & _ & _ & -> & _).
  apply get_inv in E1 as [E1 ->]. apply lift_inv in E2 as [E2 ->].
  apply get_inv in E3 as [E3 ->].
  rewrite <- !app_assoc in E4. simpl in E4.
  unfold strict_discrete_set in E2.
  destruct (py_in v1 waveform_sources) eqn:Hin; [| discriminate].
  by exists v, v0, v1, v3, v4, h1, h5.
Qed.

(** What the steps after the dict display keep of it. *)
Lemma waveform_preamble_keeps depth h p h' pre k :
  waveform_preamble dev sanitize_source depth h = (Ret p, h') ->
  preamble_fields dev h = (Ret pre, (h ++ fields_accesses)%list) ->
  k <> "average" -> k <> "sampled_points" ->
  k <> "ydiv" -> k <> "yoffset" -> k <> "unit" ->
  p !! k = pre !! k.
Proof.
  intros H Hpre ? ? ? ? ?.
  apply waveform_preamble_inv in H
    as (pre' & average & ? & ? & sampled & ? & ? & Hpre' & _ & _ & _ & _ & _ & Hy).
  rewrite Hpre in Hpre'. injection Hpre' as <-.
  apply fill_yaxis_inv in Hy as [_ Hk].
  rewrite Hk by done. by rewrite !lookup_insert_ne.
Qed.

(** C4: in every assembled preamble, ["sparsing"], ["requested_points"] and
    ["first_point"] are the elements that follow the first occurrence of
    the markers ["SP"], ["NP"] and ["FP"] in the reply to [WFSU?]; in
    particular, when the reply reads ..., SP, 1.0, NP, 0.0, FP, 0.0, ... with
    no marker before, the three fields are 1.0, 0.0 and 0.0. *)
Theorem point_count_fields (depth : nat) (h h' : history) (p : gmap string pyval) :
  waveform_preamble dev sanitize_source depth h = (Ret p, h') ->
  exists vals,
    dev_values dev h "WFSU?" = Ret vals
    /\ (exists sparsing requested first,
          follows_first "SP" vals sparsing
          /\ follows_first "NP" vals requested
          /\ follows_first "FP" vals first
          /\ p !! "sparsing" = Some sparsing
          /\ p !! "requested_points" = Some requested
          /\ p !! "first_point" = Some first)
    /\ (forall before after,
          Forall (fun y => y <> PStr "SP" /\ y <> PStr "NP" /\ y <> PStr "FP") before ->
          vals = (before ++ [PStr "SP"; PFloat (1 # 1); PStr "NP"; PFloat (0 # 1);
                             PStr "FP"; PFloat (0 # 1)] ++ after)%list ->
          p !! "sparsing" = Some (PFloat (1 # 1))
          /\ p !! "requested_points" = Some (PFloat (0 # 1))
          /\ p !! "first_point" = Some (PFloat (0 # 1))).
Proof.
  intros H.
  destruct (waveform_preamble_inv _ _ _ _ H)
    as (pre & ? & ? & ? & ? & ? & ? & Hpre & _).
  destruct (preamble_fields_inv _ _ _ Hpre)
    as (vals & sparsing & requested & first & type
        & Hv & Hsp & Hnp & Hfp & _ & _ & Lsp & Lnp & Lfp & _).
  rewrite <- (waveform_preamble_keeps _ _ _ _ _ "sparsing" H Hpre) in Lsp by done.
  rewrite <- (waveform_preamble_keeps _ _ _ _ _ "requested_points" H Hpre) in Lnp by done.
  rewrite <- (waveform_preamble_keeps _ _ _ _ _ "first_point" H Hpre) in Lfp by done.
  exists vals. split; [done |]. split.
  { by exists sparsing, requested, first. }
  intros before after Hb ->.
  rewrite Lsp, Lnp, Lfp. repeat split; f_equal.
  - apply (follows_first_unique _ _ _ _ Hsp).
    refine (follows_first_mid "SP" before [] _ _ _).
    rewrite app_nil_r. eapply Forall_impl; [exact Hb |]. by intros y (? & ? & ?).
  - apply (follows_first_unique _ _ _ _ Hnp).
    refine (follows_first_mid "NP" before [PStr "SP"; PFloat (1 # 1)] _
              (PStr "FP" :: PFloat (0 # 1) :: after) _).
    apply Forall_app. split.
    + eapply Forall_impl; [exact Hb |]. by intros y (? & ? & ?).
    + repeat constructor; discriminate.
  - apply (follows_first_unique _ _ _ _ Hfp).
    refine (follows_first_mid "FP" before
              [PStr "SP"; PFloat (1 # 1); PStr "NP"; PFloat (0 # 1)] _ after _).
    apply Forall_app. split.
    + eapply Forall_impl; [exact Hb |]. by intros y (? & ? & ?).
    + repeat constructor; discriminate.
Qed.

(** C5: in every assembled preamble, ["average"] is the reading of
    [acquisition_average] exactly when the first item of the acquisition
    type is ["average"], and [None] in every other case; a reading is never
    [None], so the field is populated if and only if the tag is
    ["average"]. *)
Theorem average_field (depth : nat) (h h' : history) (p : gmap string pyval) :
  (forall hh r, dev_get dev hh (Query "AVGA?") = Ret r -> r <> PNone) ->
  waveform_preamble dev sanitize_source depth h = (Ret p, h') ->
  exists type tag,
    dev_get dev (h ++ [Values "WFSU?"; ws])%list (Query "ACQW?") = Ret type
    /\ p !! "type" = Some type
    /\ py_getitem type 0 = Ret tag
    /\ (tag = PStr "average" ->
        exists r, dev_get dev (h ++ fields_accesses)%list (Query "AVGA?") = Ret r
                  /\ p !! "average" = Some r)
    /\ (tag <> PStr "average" -> p !! "average" = Some PNone)
    /\ (p !! "average" <> Some PNone <-> tag = PStr "average").
Proof.
  intros Hreading H.
  destruct (waveform_preamble_inv _ _ _ _ H)
    as (pre & average & ? & ? & sampled & h_avg & ? & Hpre & Havg & _ & _ & _ & _ & Hy).
  destruct (preamble_fields_inv _ _ _ Hpre)
    as (vals & ? & ? & ? & type & _ & _ & _ & _ & Ht & _ & _ & _ & _ & _ & Ltype).
  destruct (preamble_average_inv _ _ _ _ _ Ltype Havg) as (tag & Htag & Hif).
  assert (p !! "average" = Some average) as Lavg.
  { apply fill_yaxis_inv in Hy as [_ Hk]. rewrite Hk by done.
    rewrite lookup_insert_ne by done. by rewrite lookup_insert_eq. }
  exists type, tag. split; [done |]. split.
  { by rewrite (waveform_preamble_keeps _ _ _ _ _ "type" H Hpre). }
  split; [done |].
  destruct (py_eq tag (PStr "average")) eqn:Et.
  - apply py_eq_PStr in Et as ->. destruct Hif as [Hr ->].
    split; [intros _; by exists average |].
    split; [done |].
    rewrite Lavg. split; [done |]. intros _ [= ->]. by apply Hreading in Hr.
  - destruct Hif as [-> ->].
    assert (tag <> PStr "average") as Hne.
    { intros ->. vm_compute in Et. discriminate. }
    split; [done |]. split; [done |].
    rewrite Lavg. split; [done | done].
Qed.

(** C6: in every assembled preamble the Y axis comes from the Y-axis step
    that ends the assembly: when the source read there is the math trace,
    ["ydiv"] and ["yoffset"] are the math trace's scale and position and
    ["unit"] is [None]; otherwise the three fields are the scale, the offset
    and the unit of the channel named by the source. *)
Theorem yaxis_fields (depth : nat) (h h' : history) (p : gmap string pyval) :
  waveform_preamble dev sanitize_source depth h = (Ret p, h') ->
  exists pre hy,
    _fill_yaxis_preamble dev (Some pre) hy = (Ret p, h')
    /\ yaxis_from dev hy p h'.
Proof.
  intros H.
  destruct (waveform_preamble_inv _ _ _ _ H)
    as (pre & average & ? & ? & sampled & h_avg & hy & _ & _ & _ & _ & _ & _ & Hy).
  eexists _, hy. split; [exact Hy |].
  by apply fill_yaxis_inv in Hy as [Hy _].
Qed.

(** C2: when the selected waveform source is not one of C1, C2, C3, C4 and
    MATH, no assembly returns a preamble; and when the reads that precede
    the check succeed, the assembly stops with an invalid-argument error
    right after reading the source for the check, before any access made to
    resolve the sample size. *)
Theorem invalid_waveform_source_aborts (depth : nat) (h : history) (v : pyval) :
  (forall hh, dev_get dev hh (Attr "waveform_source") = Ret v) ->
  py_in v waveform_sources = false ->
  (forall p h', waveform_preamble dev sanitize_source depth h <> (Ret p, h'))
  /\ (forall pre h1 average h2,
        preamble_fields dev h = (Ret pre, h1) ->
        preamble_average dev pre h1 = (Ret average, h2) ->
        exists e,
          waveform_preamble dev sanitize_source depth h = (Raise e, (h2 ++ [ws])%list)
          /\ is_invalid_argument e = true).
Proof.
  intros Hsrc Hin. split.
  - intros p h' H.
    apply waveform_preamble_inv in H
      as (? & ? & selected & ? & ? & h_avg & ? & _ & _ & Hsel & Hok & _).
    rewrite Hsrc in Hsel. injection Hsel as <-. congruence.
  - intros pre h1 average h2 Hpre Havg.
    eexists. rewrite waveform_preamble_phases.
    rewrite (bind_run_Ret _ _ _ _ _ Hpre), (bind_run_Ret _ _ _ _ _ Havg).
    unfold bind, waveform_source, get, lift, strict_discrete_set.
    rewrite Hsrc, Hin. split; reflexivity.
Qed.

(** The math branch, once the definition has been read and parsed. *)
Lemma sample_size_MATH_run depth source definition s g1 g2 h :
  sanitized source = Ret (PStr "MATH") ->
  dev_get dev h (Attr "math_define") = Ret definition ->
  py_getitem definition 1 = Ret (PStr s) ->
  math_pattern s g1 g2 ->
  sample_size (S depth) source h =
  (let! size1 := sample_size depth (PStr g1) in
   let! size2 := sample_size depth (PStr g2) in
   lift (py_min size1 size2)) (h ++ [Get (Attr "math_define")])%list.
Proof.
  intros Hs Hd Hi Hp. apply math_re_spec in Hp.
  rewrite (sample_size_MATH _ _ _ _ _ Hs).
  unfold bind, math_define, get, lift. rewrite Hd, Hi. simpl. rewrite Hp.
  reflexivity.
Qed.

(** With two channels as operands, two nested calls are enough: the math
    trace resolves to the minimum of the two readings. *)
Lemma sample_size_MATH_channels depth source definition s g1 g2 v1 v2 q1 q2 a b h :
  sanitized source = Ret (PStr "MATH") ->
  dev_get dev h (Attr "math_define") = Ret definition ->
  py_getitem definition 1 = Ret (PStr s) ->
  math_pattern s g1 g2 ->
  sanitized (PStr g1) = Ret v1 -> channel_query v1 = Some q1 ->
  sanitized (PStr g2) = Ret v2 -> channel_query v2 = Some q2 ->
  let h1 := (h ++ [Get (Attr "math_define")])%list in
  dev_get dev h1 (Query q1) = Ret a ->
  dev_get dev (h1 ++ [Get (Query q1)])%list (Query q2) = Ret b ->
  sample_size (S (S depth)) source h
  = (py_min a b, (h ++ [Get (Attr "math_define"); Get (Query q1); Get (Query q2)])%list).
Proof.
  intros Hs Hd Hi Hp H1 Hq1 H2 Hq2 h1 Ha Hb.
  rewrite (sample_size_MATH_run _ _ _ _ _ _ _ Hs Hd Hi Hp).
  unfold bind.
  rewrite (sample_size_channel dev sanitize_source depth _ _ _ _ H1 Hq1).
  unfold get at 1. fold h1. rewrite Ha.
  rewrite (sample_size_channel dev sanitize_source depth _ _ _ _ H2 Hq2).
  unfold get at 1. rewrite Hb. unfold lift, h1.
  by rewrite <- !app_assoc.
Qed.

(** A successful resolution of the math trace is the minimum of two
    successful resolutions of its operands. *)
Lemma sample_size_MATH_inv depth source definition s g1 g2 h m hm :
  sanitized source = Ret (PStr "MATH") ->
  dev_get dev h (Attr "math_define") = Ret definition ->
  py_getitem definition 1 = Ret (PStr s) ->
  math_pattern s g1 g2 ->
  sample_size (S depth) source h = (Ret m, hm) ->
  exists a b h1,
    sample_size depth (PStr g1) (h ++ [Get (Attr "math_define")])%list = (Ret a, h1)
    /\ sample_size depth (PStr g2) h1 = (Ret b, hm)
    /\ py_min a b = Ret m.
Proof.
  intros Hs Hd Hi Hp.
  rewrite (sample_size_MATH_run _ _ _ _ _ _ _ Hs Hd Hi Hp).
  intros H.
  apply bind_Ret_inv in H as (a & h1 & Ea & H).
  apply bind_Ret_inv in H as (b & h2 & Eb & H).
  apply lift_inv in H as [H ->].
  by exists a, b, h1.
Qed.

(** The Y axis of the math trace: two reads after the source. *)
Lemma fill_yaxis_MATH pre h vdiv vpos :
  dev_get dev h (Attr "waveform_source") = Ret (PStr "MATH") ->
  dev_get dev (h ++ [ws])%list (Attr "math_vdiv") = Ret vdiv ->
  dev_get dev (h ++ [ws; Get (Attr "math_vdiv")])%list (Attr "math_vpos") = Ret vpos ->
  _fill_yaxis_preamble dev (Some pre) h
  = (Ret (<["unit" := PNone]> (<["yoffset" := vpos]> (<["ydiv" := vdiv]> pre))),
     (h ++ [ws; Get (Attr "math_vdiv"); Get (Attr "math_vpos")])%list).
Proof.
  intros Hs Hd Hp.
  unfold _fill_yaxis_preamble, bind, waveform_source, math_vdiv, math_vpos, get, ret.
  rewrite Hs. simpl. rewrite Hd. rewrite <- app_assoc. simpl. rewrite Hp.
  by rewrite <- !app_assoc.
Qed.

(** C1: for every call of [acquisition_sample_size] on the math trace whose
    stored definition parses into the operands [g1] and [g2], whatever
    source is selected: the call resolves [g1], then [g2], by calling
    itself, and returns the minimum of the two sizes; and a size it returns
    is that minimum.  Consequently, with the math trace selected, every
    assembled preamble has that minimum as ["sampled_points"], and a
    preamble is assembled, with that field, whenever the reads of the
    assembly return.  On numbers the minimum is the smaller reading. *)
Theorem math_sample_size (depth : nat) (source definition : pyval) (s g1 g2 : string) :
  sanitized source = Ret (PStr "MATH") ->
  py_getitem definition 1 = Ret (PStr s) ->
  math_pattern s g1 g2 ->
  (forall h,
     dev_get dev h (Attr "math_define") = Ret definition ->
     let h0 := (h ++ [Get (Attr "math_define")])%list in
     (forall a b h1 h2,
        sample_size depth (PStr g1) h0 = (Ret a, h1) ->
        sample_size depth (PStr g2) h1 = (Ret b, h2) ->
        sample_size (S depth) source h = (py_min a b, h2))
     /\ (forall m hm,
           sample_size (S depth) source h = (Ret m, hm) ->
           exists a b h1,
             sample_size depth (PStr g1) h0 = (Ret a, h1)
             /\ sample_size depth (PStr g2) h1 = (Ret b, hm)
             /\ py_min a b = Ret m))
  /\ ((forall hh, dev_get dev hh (Attr "waveform_source") = Ret source) ->
      (forall hh, dev_get dev hh (Attr "math_define") = Ret definition) ->
      (forall h p h',
         waveform_preamble dev sanitize_source (S depth) h = (Ret p, h') ->
         exists acc a b h1 h2 m,
           let hs := (h ++ fields_accesses ++ acc ++ [ws; ws])%list in
           sample_size depth (PStr g1) (hs ++ [Get (Attr "math_define")])%list
           = (Ret a, h1)
           /\ sample_size depth (PStr g2) h1 = (Ret b, h2)
           /\ py_min a b = Ret m
           /\ p !! "sampled_points" = Some m)
      /\ (source = PStr "MATH" ->
          forall h pre hf average h_avg a b h1 h2 m vdiv vpos,
            preamble_fields dev h = (Ret pre, hf) ->
            preamble_average dev pre hf = (Ret average, h_avg) ->
            sample_size depth (PStr g1)
              (h_avg ++ [ws; ws; Get (Attr "math_define")])%list = (Ret a, h1) ->
            sample_size depth (PStr g2) h1 = (Ret b, h2) ->
            py_min a b = Ret m ->
            dev_get dev (h2 ++ [ws])%list (Attr "math_vdiv") = Ret vdiv ->
            dev_get dev (h2 ++ [ws; Get (Attr "math_vdiv")])%list (Attr "math_vpos")
            = Ret vpos ->
            exists p,
              waveform_preamble dev sanitize_source (S depth) h
              = (Ret p, (h2 ++ [ws; Get (Attr "math_vdiv"); Get (Attr "math_vpos")])%list)
              /\ p !! "sampled_points" = Some m))
  /\ (forall a b x y,
        num_of a = Some x -> num_of b = Some y ->
        exists m z, py_min a b = Ret m /\ (m = a \/ m = b)
                    /\ num_of m = Some z /\ (z <= x)%Q /\ (z <= y)%Q).
Proof.
  intros Hs Hi Hp.
  assert (forall h a b h1 h2,
            dev_get dev h (Attr "math_define") = Ret definition ->
            sample_size depth (PStr g1) (h ++ [Get (Attr "math_define")])%list
            = (Ret a, h1) ->
            sample_size depth (PStr g2) h1 = (Ret b, h2) ->
            sample_size (S depth) source h = (py_min a b, h2)) as Hcall.
  { intros h a b h1 h2 Hd Ha Hb.
    rewrite (sample_size_MATH_run _ _ _ _ _ _ _ Hs Hd Hi Hp).
    rewrite (bind_run_Ret _ _ _ _ _ Ha), (bind_run_Ret _ _ _ _ _ Hb).
    reflexivity. }
  split; [| split; [| apply py_min_numbers]].
  - intros h Hd h0. split.
    + intros a b h1 h2. by apply Hcall.
    + intros m hm. by apply (sample_size_MATH_inv _ _ _ _ _ _ _ _ _ Hs Hd Hi Hp).
  - intros Hsrc Hd. split.
    + intros h p h' H.
      destruct (waveform_preamble_inv _ _ _ _ H)
        as (pre & average & ? & selected' & sampled & h_avg & h_size
            & Hpre & Havg & _ & _ & Hsel & Hsize & Hy).
      rewrite Hsrc in Hsel. injection Hsel as <-.
      destruct (preamble_fields_inv _ _ _ Hpre)
        as (? & ? & ? & ? & type & _ & _ & _ & _ & _ & _ & _ & _ & _ & _ & Ltype).
      destruct (preamble_average_inv _ _ _ _ _ Ltype Havg) as (tag & _ & Hif).
      assert (exists acc, h_avg = (h ++ fields_accesses ++ acc)%list) as [acc ->].
      { destruct (py_eq tag (PStr "average")).
        - destruct Hif as [_ ->]. exists [Get (Query "AVGA?")]. by rewrite <- app_assoc.
        - destruct Hif as [_ ->]. exists []. by rewrite app_nil_r. }
      rewrite <- !app_assoc in Hsize.
      destruct (sample_size_MATH_inv _ _ _ _ _ _ _ _ _ Hs (Hd _) Hi Hp Hsize)
        as (a & b & h1 & Ha & Hb & Hm).
      exists acc, a, b, h1, h_size, sampled. simpl.
      repeat split; try done.
      apply fill_yaxis_inv in Hy as [_ Hk]. rewrite Hk by done.
      by rewrite lookup_insert_eq.
    + intros -> h pre hf average h_avg a b h1 h2 m vdiv vpos
        Hpre Havg Ha Hb Hm Hvdiv Hvpos.
      assert (forall hh, waveform_source dev hh = (Ret (PStr "MATH"), (hh ++ [ws])%list))
        as Hws.
      { intros hh. unfold waveform_source, get. by rewrite Hsrc. }
      assert (sample_size (S depth) (PStr "MATH") ((h_avg ++ [ws]) ++ [ws])%list
              = (Ret m, h2)) as Hsize.
      { rewrite <- Hm. apply (Hcall _ a b h1 h2 (Hd _)); [| done].
        by rewrite <- !app_assoc. }
      eexists. split.
      * rewrite waveform_preamble_phases.
        rewrite (bind_run_Ret _ _ _ _ _ Hpre).
        rewrite (bind_run_Ret _ _ _ _ _ Havg).
        rewrite (bind_run_Ret _ _ _ _ _ (Hws _)).
        unfold bind at 1. unfold lift at 1.
        change (strict_discrete_set (PStr "MATH") waveform_sources)
          with (@Ret pyval (PStr "MATH")).
        cbv beta iota.
        rewrite (bind_run_Ret _ _ _ _ _ (Hws _)).
        rewrite (bind_run_Ret _ _ _ _ _ Hsize).
        apply fill_yaxis_MATH; [apply Hsrc | done | done].
      * by simplify_map_eq.
Qed.

End Preamble.

(** ** Timebase setup *)

Section Timebase.

Variable timebase_scale_set : pyval -> res string.
Variable timebase_scale_validator : pyval -> res pyval.
Variable timebase_offset_set : pyval -> res string.
Variable timebase_offset_validator : pyval -> res pyval.

Local Abbreviation scale_ctl :=
  (timebase_scale timebase_scale_set timebase_scale_validator).
Local Abbreviation offset_ctl :=
  (timebase_offset timebase_offset_set timebase_offset_validator).
Local Abbreviation setup :=
  (timebase_setup timebase_scale_set timebase_scale_validator
                  timebase_offset_set timebase_offset_validator).








End Timebase.


(** ** The minimum interval between commands *)

Module RateLimiterFacts.
Import RateLimiter.






(** Two commands issued 3 ms apart are transmitted 10 ms apart. *)
Example two_quick_commands :
  sent (run WRITE_INTERVAL_S [Command "TDIV 1.00E-03S" 0; Elapse 3000; Command "TDIV?" 0]
            (open_session 50000 0))
  = [(50000, "TDIV 1.00E-03S"); (60000, "TDIV?")].
Proof. reflexivity. Qed.

End RateLimiterFacts.

(** ** The theorems at work on the benches *)

Example bench_c1_run :
  waveform_preamble bench_c1 sanitize_names 1 [] = (Ret bench_c1_preamble, bench_c1_history).
Proof. vm_compute. reflexivity. Qed.

Example bench_math_run :
  waveform_preamble bench_math sanitize_names 2 []
  = (Ret bench_math_preamble, bench_math_history).
Proof. vm_compute. reflexivity. Qed.

(** The definition of the bench matches the pattern. *)
Lemma math_pattern_c1_plus_c3 : math_pattern "'C1+C3'" "C1" "C3".
Proof. apply math_re_spec. reflexivity. Qed.

(** The math trace [C1+C3] on the bench: 1.75 Mpts, the smaller of the two,
    whether the math trace or channel 1 is the selected source; and the
    preamble of the math trace is assembled with that count. *)
Lemma math_sample_size_witness :
  sanitized sanitize_names (PStr "MATH") = Ret (PStr "MATH")
  /\ py_getitem eqn_c1_plus_c3 1 = Ret (PStr "'C1+C3'")
  /\ math_pattern "'C1+C3'" "C1" "C3"
  /\ acquisition_sample_size bench_math sanitize_names 2 (PStr "MATH") []
     = (Ret (PFloat (1750000 # 1)),
        [Get (Attr "math_define"); Get (Query "SANU? C1"); Get (Query "SANU? C3")])
  /\ acquisition_sample_size bench_c1 sanitize_names 2 (PStr "MATH") []
     = (Ret (PFloat (1750000 # 1)),
        [Get (Attr "math_define"); Get (Query "SANU? C1"); Get (Query "SANU? C3")])
  /\ exists p,
       waveform_preamble bench_math sanitize_names 2 [] = (Ret p, bench_math_history)
       /\ p !! "sampled_points" = Some (PFloat (1750000 # 1)).
Proof.
  destruct (math_sample_size bench_math sanitize_names 1 (PStr "MATH")
              eqn_c1_plus_c3 "'C1+C3'" "C1" "C3" eq_refl eq_refl
              math_pattern_c1_plus_c3)
    as (Hcall & Hpre & _).
  destruct (math_sample_size bench_c1 sanitize_names 1 (PStr "MATH")
              eqn_c1_plus_c3 "'C1+C3'" "C1" "C3" eq_refl eq_refl
              math_pattern_c1_plus_c3)
    as (Hcall1 & _ & _).
  split; [reflexivity |]. split; [reflexivity |].
  split; [exact math_pattern_c1_plus_c3 |].
  split.
  { exact (proj1 (Hcall [] eq_refl)
             (PFloat (3500000 # 1)) (PFloat (1750000 # 1)) _ _ eq_refl eq_refl). }
  split.
  { exact (proj1 (Hcall1 [] eq_refl)
             (PFloat (3500000 # 1)) (PFloat (1750000 # 1)) _ _ eq_refl eq_refl). }
  destruct (Hpre (fun _ => eq_refl) (fun _ => eq_refl)) as [_ Hrun].
  exact (Hrun eq_refl [] bench_math_fields fields_accesses (PFloat (16 # 1))
           (fields_accesses ++ [Get (Query "AVGA?")])%list
           (PFloat (3500000 # 1)) (PFloat (1750000 # 1)) _ _
           (PFloat (1750000 # 1)) (PFloat (1 # 2)) (PInt 25)
           ltac:(vm_compute; reflexivity) ltac:(vm_compute; reflexivity)
           eq_refl eq_refl eq_refl eq_refl eq_refl).
Defined.

(** The bench with ["C5"] selected: the assembly stops at the source check. *)
Lemma invalid_waveform_source_aborts_witness :
  (forall hh, dev_get bench_c5 hh (Attr "waveform_source") = Ret (PStr "C5"))
  /\ py_in (PStr "C5") waveform_sources = false
  /\ (forall p h', waveform_preamble bench_c5 sanitize_names 1 [] <> (Ret p, h'))
  /\ exists e,
       waveform_preamble bench_c5 sanitize_names 1 []
       = (Raise e, (fields_accesses ++ [Get (Attr "waveform_source")])%list)
       /\ is_invalid_argument e = true.
Proof.
  destruct (invalid_waveform_source_aborts bench_c5 sanitize_names 1 [] (PStr "C5")
              (fun _ => eq_refl) eq_refl) as [Hnone Hraise].
  split; [intros hh; reflexivity |]. split; [reflexivity |].
  split; [exact Hnone |].
  refine (Hraise _ fields_accesses PNone fields_accesses _ _); vm_compute; reflexivity.
Defined.

(** The pairs of channels on the bench. *)
Lemma shared_adc_sample_size_witness :
  sanitize_names "C1" = Ret "C1" /\ sanitize_names "C2" = Ret "C2"
  /\ sanitize_names "C3" = Ret "C3" /\ sanitize_names "C4" = Ret "C4"
  /\ acquisition_sample_size bench_c1 sanitize_names 1 (PStr "C1") []
     = acquisition_sample_size bench_c1 sanitize_names 1 (PStr "C2") []
  /\ acquisition_sample_size bench_c1 sanitize_names 1 (PInt 3) []
     = acquisition_sample_size bench_c1 sanitize_names 1 (PInt 4) [].
Proof.
  destruct (shared_adc_sample_size bench_c1 sanitize_names 1 []
              eq_refl eq_refl eq_refl eq_refl)
    as (_ & _ & _ & _ & _ & H34 & H12 & _).
  repeat split; try reflexivity; assumption.
Defined.

(** The point counts of the bench preamble. *)
Lemma point_count_fields_witness :
  waveform_preamble bench_c1 sanitize_names 1 [] = (Ret bench_c1_preamble, bench_c1_history)
  /\ bench_c1_preamble !! "sparsing" = Some (PFloat (1 # 1))
  /\ bench_c1_preamble !! "requested_points" = Some (PFloat (0 # 1))
  /\ bench_c1_preamble !! "first_point" = Some (PFloat (0 # 1)).
Proof.
  split; [exact bench_c1_run |].
  destruct (point_count_fields bench_c1 sanitize_names 1 [] _ _ bench_c1_run)
    as (vals & Hv & _ & Hshape).
  injection Hv as <-.
  exact (Hshape [] [] (Forall_nil_2 _) eq_refl).
Defined.

(** The bench answers [AVGA?] with a number. *)
Lemma bench_readings_not_None source type definition wfsu hh r :
  dev_get (bench_scope source type definition wfsu) hh (Query "AVGA?") = Ret r ->
  r <> PNone.
Proof. intros [= <-]. discriminate. Qed.

(** The averaging bench: the field is populated. *)
Lemma average_field_witness :
  (forall hh r, dev_get bench_math hh (Query "AVGA?") = Ret r -> r <> PNone)
  /\ waveform_preamble bench_math sanitize_names 2 []
     = (Ret bench_math_preamble, bench_math_history)
  /\ exists type tag,
       bench_math_preamble !! "type" = Some type
       /\ py_getitem type 0 = Ret tag
       /\ (bench_math_preamble !! "average" <> Some PNone <-> tag = PStr "average").
Proof.
  split; [apply bench_readings_not_None |]. split; [exact bench_math_run |].
  destruct (average_field bench_math sanitize_names 2 [] _ _
              (bench_readings_not_None _ _ _ _) bench_math_run)
    as (type & tag & _ & Ht & Hg & _ & _ & Hiff).
  exists type, tag. auto.
Defined.

(** The Y axis of the math trace on the bench. *)
Lemma yaxis_fields_witness :
  waveform_preamble bench_math sanitize_names 2 []
  = (Ret bench_math_preamble, bench_math_history)
  /\ exists pre hy,
       _fill_yaxis_preamble bench_math (Some pre) hy
       = (Ret bench_math_preamble, bench_math_history)
       /\ yaxis_from bench_math hy bench_math_preamble bench_math_history.
Proof.
  split; [exact bench_math_run |].
  exact (yaxis_fields bench_math sanitize_names 2 [] _ _ bench_math_run).
Defined.

(** ["LINE"] passes the sanitiser and is rejected by the dispatch. *)
Lemma invalid_source_rejected_witness :
  sanitized sanitize_names (PStr "LINE") = Ret (PStr "LINE")
  /\ py_in (PStr "LINE") accepted_sources = false
  /\ acquisition_sample_size bench_c1 sanitize_names 1 (PStr "LINE") []
     = (Raise (ValueError invalid_source_message), []).
Proof.
  split; [reflexivity |]. split; [reflexivity |].
  exact (proj1 (invalid_source_rejected bench_c1 sanitize_names 0 (PStr "LINE")
                  (PStr "LINE") [] eq_refl eq_refl)).
Defined.

(** An FFT as math definition: the match fails and [group] raises. *)
Lemma malformed_math_definition_witness :
  sanitized sanitize_names (PStr "MATH") = Ret (PStr "MATH")
  /\ dev_get bench_fft [] (Attr "math_define") = Ret (PList [PStr "EQN"; PStr "'FFT(C1)'"])
  /\ py_getitem (PList [PStr "EQN"; PStr "'FFT(C1)'"]) 1 = Ret (PStr "'FFT(C1)'")
  /\ (forall g1 g2, ~ math_pattern "'FFT(C1)'" g1 g2)
  /\ acquisition_sample_size bench_fft sanitize_names 1 (PStr "MATH") []
     = (Raise AttributeError, [Get (Attr "math_define")]).
Proof.
  assert (forall g1 g2, ~ math_pattern "'FFT(C1)'" g1 g2) as Hp.
  { apply math_re_None. reflexivity. }
  split; [reflexivity |]. split; [reflexivity |]. split; [reflexivity |].
  split; [exact Hp |].
  exact (proj1 (malformed_math_definition bench_fft sanitize_names 0 (PStr "MATH")
                  _ "'FFT(C1)'" [] eq_refl eq_refl eq_refl Hp)).
Defined.


(** * Further properties of the driver *)

Set Warnings "-clear-no-such-hyp".

(** ** Post-processing of the acquisition type *)

Example int_of_str_cases :
  map int_of_str ["16"; " 16 "; "+16"; "-16"; "1_6"; "_16"; "16_"; "1__6"; "0016";
                  ""; "+"; "1.0"; "1e3"; "+ 1"; "1 2"; "--1"; "0_0"]
  = [Some 16; Some 16; Some 16; Some (-16); Some 16; None; None; None; Some 16;
     None; None; None; None; None; None; None; Some 0].
Proof. reflexivity. Qed.

Example get_process_average :
  acquisition_type_get_process (PList [PStr "AVERAGE"; PFloat (16 # 1)])
  = Ret (PList [PStr "average"; PInt 16]).
Proof. reflexivity. Qed.

Example get_process_sampling :
  acquisition_type_get_process (PStr "SAMPLING") = Ret (PStr "SAMPLING").
Proof. reflexivity. Qed.

Arguments int_of_str : simpl never.

Lemma get_process_cases v w :
  acquisition_type_get_process v = Ret w ->
  (w = v /\ ((exists s, v = PStr s) \/ (exists l, v = PList l)))
  \/ (exists x z, v = PList [PStr "AVERAGE"; x]
                  /\ py_int x = Ret (PInt z)
                  /\ w = PList [PStr "average"; PInt z]).
Proof.
  unfold acquisition_type_get_process.
  destruct v as [| b | z | q | s | l]; simpl; try discriminate.
  - destruct (String.length s =? 2)%nat eqn:E; simpl.
    + destruct s as [| c1 [| c2 [| c3 s]]]; try discriminate. simpl.
      case_decide; [discriminate |]. simpl. intros [= <-]. left. eauto.
    + intros [= <-]. left. eauto.
  - destruct l as [| a [| x [| y l]]]; simpl; try (intros [= <-]; left; by eauto).
    destruct (py_eq a (PStr "AVERAGE")) eqn:Ea; simpl.
    + apply py_eq_PStr in Ea as ->. simpl.
      destruct x as [| b | z | q | s |]; simpl; try discriminate.
      * intros [= <-]. right. by eexists _, _.
      * intros [= <-]. right. by eexists _, _.
      * intros [= <-]. right. by eexists _, _.
      * destruct (int_of_str s) as [z |] eqn:Ez; simpl; [| discriminate].
        intros [= <-]. right. exists (PStr s), z. simpl. by rewrite Ez.
    + intros [= <-]. left. eauto.
Qed.

(** X1: what the post-processing of [acquisition_type] returns.  It returns
    only for strings and lists; it hands its argument back unchanged unless
    the argument is a two-item list headed by ["AVERAGE"], in which case the
    result is [["average", n]] with [n] the second item as an integer, and
    the first item of the result is then ["average"]. *)
Theorem get_process_result (v w : pyval) :
  acquisition_type_get_process v = Ret w ->
  ((exists s, v = PStr s) \/ (exists l, v = PList l))
  /\ ((w = v /\ forall x, v <> PList [PStr "AVERAGE"; x])
      \/ (exists x z, v = PList [PStr "AVERAGE"; x]
                      /\ py_int x = Ret (PInt z)
                      /\ w = PList [PStr "average"; PInt z]
                      /\ py_getitem w 0 = Ret (PStr "average"))).
Proof.
  intros H. destruct (get_process_cases _ _ H) as [[-> Hv] | (x & z & -> & Hx & ->)].
  - split; [done |]. left. split; [done |].
    intros x ->. simpl in H. unfold acquisition_type_get_process in H. simpl in H.
    destruct (py_int x) as [e | c]; simpl in H; [discriminate |].
    injection H as H. discriminate H.
  - split; [right; eauto |]. right. by exists x, z.
Qed.

(** X2: the post-processing is idempotent: applied to one of its own
    results, it returns that result. *)
Theorem get_process_idempotent (v w : pyval) :
  acquisition_type_get_process v = Ret w ->
  acquisition_type_get_process w = Ret w.
Proof.
  intros H. destruct (get_process_cases _ _ H) as [[-> _] | (x & z & _ & _ & ->)].
  - exact H.
  - reflexivity.
Qed.

(** ** What a run adds to the history *)

Lemma adds_ret {A} P (a : A) : adds P (ret a).
Proof. intros h. exists []. by rewrite app_nil_r. Qed.

Lemma adds_raise {A} P e : adds P (@raise A e).
Proof. intros h. exists []. by rewrite app_nil_r. Qed.

Lemma adds_lift {A} P (r : res A) : adds P (lift r).
Proof. intros h. exists []. by rewrite app_nil_r. Qed.

Lemma adds_get dev P r : P (Get r) = true -> adds P (get dev r).
Proof. intros Hr h. exists [Get r]. simpl. by rewrite Hr. Qed.

Lemma adds_values dev P cmd : P (Values cmd) = true -> adds P (values dev cmd).
Proof. intros Hr h. exists [Values cmd]. simpl. by rewrite Hr. Qed.

Lemma adds_bind {A B} P (m : M A) (k : A -> M B) :
  adds P m -> (forall a, adds P (k a)) -> adds P (bind m k).
Proof.
  intros Hm Hk h. unfold bind.
  destruct (Hm h) as (l1 & E1 & F1).
  destruct (m h) as [[e | a] h1]; simpl in E1; subst h1.
  - by exists l1.
  - destruct (Hk a (h ++ l1)%list) as (l2 & E2 & F2).
    exists (l1 ++ l2)%list. rewrite E2, app_assoc, forallb_app, F1, F2. done.
Qed.

Lemma adds_weaken {A} (P Q : event -> bool) (m : M A) :
  (forall e, P e = true -> Q e = true) -> adds P m -> adds Q m.
Proof.
  intros HPQ Hm h. destruct (Hm h) as (l & E & F). exists l. split; [done |].
  apply forallb_forall. intros e He.
  apply HPQ. by apply (proj1 (forallb_forall _ _) F).
Qed.

Lemma sample_size_adds dev sanitize_source depth source :
  adds is_sample_size_access (acquisition_sample_size dev sanitize_source depth source).
Proof.
  revert source. induction depth as [| depth IH]; intros source.
  - apply adds_raise.
  - rewrite sample_size_unfold.
    apply adds_bind; [apply adds_lift |]. intros v.
    repeat (match goal with |- adds _ (if ?b then _ else _) => destruct b end;
            [by apply adds_get |]).
    match goal with |- adds _ (if ?b then _ else _) => destruct b end;
      [| apply adds_raise].
    apply adds_bind; [by apply adds_get |]. intros d.
    apply adds_bind; [apply adds_lift |]. intros md.
    apply adds_bind; [apply adds_lift |]. intros mt.
    apply adds_bind; [apply adds_lift |]. intros g1.
    apply adds_bind; [apply IH |]. intros s1.
    apply adds_bind; [apply adds_lift |]. intros g2.
    apply adds_bind; [apply IH |]. intros s2.
    apply adds_lift.
Qed.

Lemma math_tail_adds dev sanitize_source depth definition :
  adds is_sample_size_access
    (let! math_define := lift (py_getitem definition 1) in
     let! mtch := lift (re_match math_define) in
     let! g1 := lift (match_group1 mtch) in
     let! size1 := acquisition_sample_size dev sanitize_source depth g1 in
     let! g2 := lift (match_group2 mtch) in
     let! size2 := acquisition_sample_size dev sanitize_source depth g2 in
     lift (py_min size1 size2)).
Proof.
  apply adds_bind; [apply adds_lift |]. intros md.
  apply adds_bind; [apply adds_lift |]. intros mt.
  apply adds_bind; [apply adds_lift |]. intros g1.
  apply adds_bind; [apply sample_size_adds |]. intros s1.
  apply adds_bind; [apply adds_lift |]. intros g2.
  apply adds_bind; [apply sample_size_adds |]. intros s2.
  apply adds_lift.
Qed.

Lemma is_sample_size_access_inv e :
  is_sample_size_access e = true ->
  e = Get (Query "SANU? C1") \/ e = Get (Query "SANU? C3")
  \/ e = Get (Attr "math_define").
Proof.
  destruct e as [cmd | [cmd | name | src name] | p t]; simpl; try discriminate.
  - intros [H | H]%orb_true_iff; apply bool_decide_eq_true in H; subst; auto.
  - intros H. apply bool_decide_eq_true in H. subst. auto.
Qed.

(** X3: whatever it returns or raises, [acquisition_sample_size] only
    appends to the history, and everything it appends is one of three
    accesses: the query [SANU? C1], the query [SANU? C3] or a read of the
    math definition.  In particular it never writes and never queries the
    sample size of channel 2, of channel 4 or of the math trace. *)
Theorem sample_size_accesses (dev : device) (sanitize_source : string -> res string)
    (depth : nat) (source : pyval) (h : history) :
  exists l,
    snd (acquisition_sample_size dev sanitize_source depth source h) = (h ++ l)%list
    /\ forall e, e ∈ l ->
         e = Get (Query "SANU? C1") \/ e = Get (Query "SANU? C3")
         \/ e = Get (Attr "math_define").
Proof.
  destruct (sample_size_adds dev sanitize_source depth source h) as (l & E & F).
  exists l. split; [done |]. intros e He.
  apply is_sample_size_access_inv.
  apply (proj1 (forallb_forall _ _) F). by apply list_elem_of_In.
Qed.

Lemma fill_yaxis_adds dev preamble : adds is_read (_fill_yaxis_preamble dev preamble).
Proof.
  unfold _fill_yaxis_preamble.
  apply adds_bind; [by apply adds_get |]. intros source.
  destruct (py_eq source (PStr "MATH")).
  - repeat (apply adds_bind; [by apply adds_get |]; intros ?). apply adds_ret.
  - repeat (apply adds_bind; [by apply adds_get |]; intros ?). apply adds_ret.
Qed.

Lemma waveform_preamble_adds dev sanitize_source depth :
  adds is_read (waveform_preamble dev sanitize_source depth).
Proof.
  unfold waveform_preamble.
  apply adds_bind; [by apply adds_values |]. intros vals.
  do 6 (apply adds_bind; [apply adds_lift |]; intros ?).
  do 8 (apply adds_bind; [by apply adds_get |]; intros ?).
  do 2 (apply adds_bind; [apply adds_lift |]; intros ?).
  apply adds_bind.
  { match goal with |- adds _ (if ?b then _ else _) => destruct b end;
      [by apply adds_get | apply adds_ret]. }
  intros average.
  apply adds_bind; [by apply adds_get |]. intros selected.
  apply adds_bind; [apply adds_lift |]. intros ok.
  apply adds_bind; [by apply adds_get |]. intros selected'.
  apply adds_bind.
  { eapply adds_weaken; [| apply sample_size_adds].
    intros e He. by destruct (is_sample_size_access_inv e He) as [-> | [-> | ->]]. }
  intros sampled. apply fill_yaxis_adds.
Qed.

(** X4: assembling a preamble is read-only: whatever it returns or raises,
    [waveform_preamble] only appends to the history, and nothing it appends
    is a write to the instrument. *)
Theorem waveform_preamble_read_only (dev : device)
    (sanitize_source : string -> res string) (depth : nat) (h : history) :
  exists l,
    snd (waveform_preamble dev sanitize_source depth h) = (h ++ l)%list
    /\ forall name command, Wrote name command ∉ l.
Proof.
  destruct (waveform_preamble_adds dev sanitize_source depth h) as (l & E & F).
  exists l. split; [done |]. intros name command He.
  apply list_elem_of_In in He.
  by apply (proj1 (forallb_forall _ _) F) in He.
Qed.

(** ** More on the sample size *)

Section SampleSizeMore.

Variable dev : device.
Variable sanitize_source : string -> res string.

Local Abbreviation sample_size := (acquisition_sample_size dev sanitize_source).
Local Abbreviation sanitized := (sanitized sanitize_source).
Local Abbreviation ws := (Get (Attr "waveform_source")).

(** X5: a math definition whose first operand is the math trace itself
    never resolves.  Each nested call reads the definition once more, and
    the call ends in [RecursionError] when the interpreter allows no further
    nesting: nothing in the method guards against the self-reference. *)
Theorem self_referential_math_definition (depth : nat) (source definition : pyval)
    (s g1 g2 : string) (h : history) :
  (forall hh, dev_get dev hh (Attr "math_define") = Ret definition) ->
  py_getitem definition 1 = Ret (PStr s) ->
  math_pattern s g1 g2 ->
  sanitize_source g1 = Ret "MATH" ->
  sanitized source = Ret (PStr "MATH") ->
  sample_size depth source h
  = (Raise RecursionError, (h ++ repeat (Get (Attr "math_define")) depth)%list).
Proof.
  intros Hd Hi Hp Hg. revert source h.
  induction depth as [| depth IH]; intros source h Hs.
  - simpl. unfold raise. by rewrite app_nil_r.
  - rewrite (sample_size_MATH_run _ _ _ _ _ _ _ _ _ Hs (Hd _) Hi Hp).
    assert (sanitized (PStr g1) = Ret (PStr "MATH")) as Hs1.
    { simpl. by rewrite Hg. }
    rewrite (bind_run_Raise _ _ _ _ _ (IH _ _ Hs1)).
    simpl. by rewrite <- app_assoc.
Qed.

Lemma py_in_accepted v l :
  py_in v l = true -> (forall x, x ∈ l -> x ∈ accepted_sources) ->
  py_in v accepted_sources = true.
Proof.
  unfold py_in. intros Hv Hl.
  apply existsb_exists in Hv as (x & Hx & Hvx).
  apply existsb_exists. exists x. split; [| done].
  apply list_elem_of_In, Hl, list_elem_of_In, Hx.
Qed.

(** X6: [acquisition_sample_size] returns a value only for a source that
    sanitisation lets through and that is one of 1..4, C1..C4 and MATH, and
    never without asking the instrument: a returned value comes with at
    least one new access in the history. *)
Theorem sample_size_returns_only_for_accepted (depth : nat) (source m : pyval)
    (h h' : history) :
  sample_size depth source h = (Ret m, h') ->
  exists v l,
    sanitized source = Ret v
    /\ py_in v accepted_sources = true
    /\ h' = (h ++ l)%list /\ l <> [].
Proof.
  destruct depth as [| depth]; [discriminate |].
  rewrite sample_size_unfold. intros H.
  apply bind_Ret_inv in H as (v & h0 & Hs & H).
  apply lift_inv in Hs as [Hs ->].
  exists v.
  assert (forall q, get dev (Query q) h = (Ret m, h') ->
                    exists l, h' = (h ++ l)%list /\ l <> []) as Hget.
  { intros q [_ ->]%get_inv. by eexists. }
  destruct (py_in v [PInt 1; PStr "C1"]) eqn:E1.
  { destruct (Hget _ H) as (l & -> & Hl). exists l. repeat split; try done.
    apply (py_in_accepted _ _ E1). intros x Hx. unfold accepted_sources.
    repeat (apply elem_of_cons in Hx as [-> | Hx]; [repeat constructor |]).
    by apply elem_of_nil in Hx. }
  destruct (py_in v [PInt 2; PStr "C2"]) eqn:E2.
  { destruct (Hget _ H) as (l & -> & Hl). exists l. repeat split; try done.
    apply (py_in_accepted _ _ E2). intros x Hx. unfold accepted_sources.
    repeat (apply elem_of_cons in Hx as [-> | Hx]; [repeat constructor |]).
    by apply elem_of_nil in Hx. }
  destruct (py_in v [PInt 3; PStr "C3"]) eqn:E3.
  { destruct (Hget _ H) as (l & -> & Hl). exists l. repeat split; try done.
    apply (py_in_accepted _ _ E3). intros x Hx. unfold accepted_sources.
    repeat (apply elem_of_cons in Hx as [-> | Hx]; [repeat constructor |]).
    by apply elem_of_nil in Hx. }
  destruct (py_in v [PInt 4; PStr "C4"]) eqn:E4.
  { destruct (Hget _ H) as (l & -> & Hl). exists l. repeat split; try done.
    apply (py_in_accepted _ _ E4). intros x Hx. unfold accepted_sources.
    repeat (apply elem_of_cons in Hx as [-> | Hx]; [repeat constructor |]).
    by apply elem_of_nil in Hx. }
  destruct (py_eq v (PStr "MATH")) eqn:Em; [| discriminate].
  apply bind_Ret_inv in H as (d & h1 & Hd & H).
  apply get_inv in Hd as [_ ->].
  assert (exists l2, h' = ((h ++ [Get (Attr "math_define")]) ++ l2)%list) as [l2 ->].
  { destruct (math_tail_adds dev sanitize_source depth d
                (h ++ [Get (Attr "math_define")])%list) as (l2 & E & _).
    rewrite H in E. simpl in E. by exists l2. }
  exists ([Get (Attr "math_define")] ++ l2)%list.
  repeat split; [done | | by rewrite app_assoc | done].
  apply py_eq_PStr in Em as ->. reflexivity.
Qed.

(** X7: with a direct channel selected, ["sampled_points"] of every
    assembled preamble is the reading of that channel's sample-size query,
    [SANU? C1] for channels 1 and 2 and [SANU? C3] for channels 3 and 4,
    made right after the source has been read for the second time. *)
Theorem direct_channel_sampled_points (depth : nat) (v v' : pyval) (q : string)
    (h h' : history) (p : gmap string pyval) :
  (forall hh, dev_get dev hh (Attr "waveform_source") = Ret v) ->
  sanitized v = Ret v' ->
  channel_query v' = Some q ->
  waveform_preamble dev sanitize_source depth h = (Ret p, h') ->
  exists acc r,
    (acc = [] \/ acc = [Get (Query "AVGA?")])
    /\ dev_get dev (h ++ fields_accesses ++ acc ++ [ws; ws])%list (Query q) = Ret r
    /\ p !! "sampled_points" = Some r.
Proof.
  intros Hsrc Hs Hq H.
  destruct (waveform_preamble_inv _ _ _ _ _ _ H)
    as (pre & average & ? & selected' & sampled & h_avg & h_size
        & Hpre & Havg & _ & _ & Hsel & Hsize & Hy).
  rewrite Hsrc in Hsel. injection Hsel as <-.
  destruct (preamble_fields_inv _ _ _ _ Hpre)
    as (? & ? & ? & ? & type & _ & _ & _ & _ & _ & _ & _ & _ & _ & _ & Ltype).
  destruct (preamble_average_inv _ _ _ _ _ _ Ltype Havg) as (tag & _ & Hif).
  assert (exists acc, (acc = [] \/ acc = [Get (Query "AVGA?")])
                      /\ h_avg = (h ++ fields_accesses ++ acc)%list) as (acc & Hacc & ->).
  { destruct (py_eq tag (PStr "average")).
    - destruct Hif as [_ ->]. exists [Get (Query "AVGA?")].
      split; [by right | by rewrite <- app_assoc].
    - destruct Hif as [_ ->]. exists []. split; [by left | by rewrite app_nil_r]. }
  rewrite <- !app_assoc in Hsize.
  destruct depth as [| depth]; [discriminate |].
  rewrite (sample_size_channel dev sanitize_source depth _ _ _ _ Hs Hq) in Hsize.
  apply get_inv in Hsize as [Hr ->].
  exists acc, sampled. repeat split; try done.
  apply fill_yaxis_inv in Hy as [_ Hk]. rewrite Hk by done.
  by rewrite lookup_insert_eq.
Qed.

End SampleSizeMore.

(** ** The Y-axis step *)

Section YAxis.

Variable dev : device.

Lemma fill_yaxis_result preamble h p h' :
  _fill_yaxis_preamble dev preamble h = (Ret p, h') ->
  exists ydiv yoffset unit,
    p = <["unit" := unit]> (<["yoffset" := yoffset]> (<["ydiv" := ydiv]>
          (match preamble with Some pre => pre | None => ∅ end))).
Proof.
  unfold _fill_yaxis_preamble. intros H.
  apply bind_Ret_inv in H as (source & h0 & _ & H).
  destruct (py_eq source (PStr "MATH")).
  - bind_inv H. apply ret_inv in H as [[= ->] _]. by eexists _, _, _.
  - bind_inv H. apply ret_inv in H as [[= ->] _]. by eexists _, _, _.
Qed.

(** X8: the Y-axis step only touches its own three fields.  Given a
    preamble it returns one with the same fields plus ["ydiv"], ["yoffset"]
    and ["unit"], every other field unchanged; called without a preamble it
    returns exactly these three fields. *)
Theorem fill_yaxis_frame (preamble : option (gmap string pyval)) (h h' : history)
    (p : gmap string pyval) :
  _fill_yaxis_preamble dev preamble h = (Ret p, h') ->
  let pre := match preamble with Some pre => pre | None => ∅ end in
  dom p = yaxis_keys ∪ dom pre
  /\ (forall k, k ∉ yaxis_keys -> p !! k = pre !! k)
  /\ (preamble = None -> dom p = yaxis_keys).
Proof.
  intros H pre. destruct (fill_yaxis_result _ _ _ _ H) as (ydiv & yoffset & unit & ->).
  fold pre. split; [| split].
  - rewrite !dom_insert_L. unfold yaxis_keys. set_solver.
  - intros k Hk. unfold yaxis_keys in Hk.
    rewrite !lookup_insert_ne; [done | set_solver ..].
  - intros ->. subst pre. rewrite !dom_insert_L, dom_empty_L.
    unfold yaxis_keys. set_solver.
Qed.

End YAxis.

(** ** More on the waveform preamble *)

Section PreambleMore.

Variable dev : device.
Variable sanitize_source : string -> res string.

Local Abbreviation ws := (Get (Attr "waveform_source")).

Lemma preamble_fields_result h pre h1 :
  preamble_fields dev h = (Ret pre, h1) ->
  exists source,
    dev_get dev (h ++ [Values "WFSU?"])%list (Attr "waveform_source") = Ret source
    /\ pre !! "source" = Some source
    /\ pre !! "transmitted_points" = Some PNone
    /\ dom pre = list_to_set
         ["sparsing"; "requested_points"; "first_point"; "transmitted_points";
          "source"; "type"; "sampling_rate"; "grid_number"; "status";
          "memory_size"; "xdiv"; "xoffset"].
Proof.
  unfold preamble_fields. intros H.
  apply bind_Ret_inv in H as (vals & h0 & E0 & H).
  apply values_inv in E0 as [_ ->].
  do 6 (let a := fresh "v" in let h := fresh "h" in let E := fresh "E" in
        apply bind_Ret_inv in H as (a & h & E & H); apply lift_inv in E as [_ ->]).
  apply bind_Ret_inv in H as (source & h2 & Es & H).
  apply get_inv in Es as [Es _].
  bind_inv H. apply ret_inv in H as [[= ->] _].
  exists source. split; [done |]. split; [by simplify_map_eq |].
  split; [by simplify_map_eq |].
  rewrite !dom_insert_L, dom_empty_L. vm_compute. reflexivity.
Qed.

(** X9: every assembled preamble has exactly the seventeen fields of the
    method's documentation: the twelve of the dict display, ["average"],
    ["sampled_points"] and the three of the Y axis. *)
Theorem preamble_has_all_fields (depth : nat) (h h' : history) (p : gmap string pyval) :
  waveform_preamble dev sanitize_source depth h = (Ret p, h') ->
  dom p = preamble_keys.
Proof.
  intros H.
  destruct (waveform_preamble_inv _ _ _ _ _ _ H)
    as (pre & average & ? & ? & sampled & ? & ? & Hpre & _ & _ & _ & _ & _ & Hy).
  destruct (preamble_fields_result _ _ _ Hpre) as (? & _ & _ & _ & Hdom).
  destruct (fill_yaxis_result _ _ _ _ _ Hy) as (? & ? & ? & ->).
  rewrite !dom_insert_L, Hdom. vm_compute. reflexivity.
Qed.

(** X10: in every assembled preamble ["transmitted_points"] is [None] and
    ["source"] is the source read right after the reply to [WFSU?]; when the
    selection does not change during the assembly, that source is one of
    C1, C2, C3, C4 and MATH. *)
Theorem preamble_source_field (depth : nat) (h h' : history) (p : gmap string pyval) :
  waveform_preamble dev sanitize_source depth h = (Ret p, h') ->
  p !! "transmitted_points" = Some PNone
  /\ exists source,
       dev_get dev (h ++ [Values "WFSU?"])%list (Attr "waveform_source") = Ret source
       /\ p !! "source" = Some source
       /\ ((forall hh, dev_get dev hh (Attr "waveform_source") = Ret source) ->
           py_in source waveform_sources = true).
Proof.
  intros H.
  destruct (waveform_preamble_inv _ _ _ _ _ _ H)
    as (pre & average & selected & ? & sampled & h_avg & ? & Hpre & _ & Hsel & Hok & _).
  destruct (preamble_fields_result _ _ _ Hpre) as (source & Hs & Ls & Lt & _).
  rewrite <- (waveform_preamble_keeps _ _ _ _ _ _ _ "transmitted_points" H Hpre) in Lt
    by done.
  rewrite <- (waveform_preamble_keeps _ _ _ _ _ _ _ "source" H Hpre) in Ls by done.
  split; [done |]. exists source. repeat split; try done.
  intros Hstable. rewrite Hstable in Hsel. by injection Hsel as <-.
Qed.

Lemma py_list_index_absent marker vals :
  PStr marker ∉ vals -> exists msg, py_list_index (PStr marker) vals = Raise (ValueError msg).
Proof.
  induction vals as [| y vals IH]; simpl; intros Hn; [by eexists |].
  apply not_elem_of_cons in Hn as [Hy Hn].
  destruct (py_eq y (PStr marker)) eqn:E.
  - apply py_eq_PStr in E. congruence.
  - destruct (IH Hn) as [msg ->]. by eexists.
Qed.

Lemma py_list_index_Raise x vals e :
  py_list_index x vals = Raise e -> is_invalid_argument e = true.
Proof.
  induction vals as [| y vals IH]; simpl; [by intros [= <-] |].
  destruct (py_eq y x); [discriminate |].
  destruct (py_list_index x vals); [| discriminate]. intros [= <-]. by apply IH.
Qed.

Lemma py_list_index_Ret marker vals i :
  py_list_index (PStr marker) vals = Ret i -> PStr marker ∈ vals.
Proof.
  intros [Hi _]%py_list_index_first. by eapply list_elem_of_lookup_2.
Qed.

Lemma py_list_get_Raise vals i e : py_list_get vals i = Raise e -> e = IndexError.
Proof. unfold py_list_get. destruct (vals !! i); [discriminate | by intros [= <-]]. Qed.

(** X11: a reply to [WFSU?] that lacks one of the markers SP, NP and FP
    stops the assembly at once: [waveform_preamble] raises an
    invalid-argument error (the failed search) or an index error (a marker
    at the very end of the reply), and the reply is the only access it has
    made; with SP missing the error is the invalid-argument one. *)
Theorem missing_marker_aborts (depth : nat) (h : history) (vals : list pyval) :
  dev_values dev h "WFSU?" = Ret vals ->
  PStr "SP" ∉ vals \/ PStr "NP" ∉ vals \/ PStr "FP" ∉ vals ->
  exists e,
    waveform_preamble dev sanitize_source depth h = (Raise e, (h ++ [Values "WFSU?"])%list)
    /\ (is_invalid_argument e = true \/ e = IndexError)
    /\ (PStr "SP" ∉ vals -> is_invalid_argument e = true).
Proof.
  intros Hv Hmiss. unfold waveform_preamble.
  unfold bind at 1. unfold values at 1. rewrite Hv.
  unfold bind at 1. unfold lift at 1.
  destruct (py_list_index (PStr "SP") vals) as [e | i_sp] eqn:Esp.
  { exists e. pose proof (py_list_index_Raise _ _ _ Esp). auto. }
  unfold bind at 1. unfold lift at 1.
  destruct (py_list_get vals (i_sp + 1)) as [e | sparsing] eqn:Gsp.
  { exists e. apply py_list_get_Raise in Gsp as ->. repeat split; auto.
    intros Hn. by apply py_list_index_Ret in Esp. }
  unfold bind at 1. unfold lift at 1.
  destruct (py_list_index (PStr "NP") vals) as [e | i_np] eqn:Enp.
  { exists e. pose proof (py_list_index_Raise _ _ _ Enp). repeat split; auto. }
  unfold bind at 1. unfold lift at 1.
  destruct (py_list_get vals (i_np + 1)) as [e | requested] eqn:Gnp.
  { exists e. apply py_list_get_Raise in Gnp as ->. repeat split; auto.
    intros Hn. by apply py_list_index_Ret in Esp. }
  unfold bind at 1. unfold lift at 1.
  destruct (py_list_index (PStr "FP") vals) as [e | i_fp] eqn:Efp.
  { exists e. pose proof (py_list_index_Raise _ _ _ Efp). repeat split; auto. }
  apply py_list_index_Ret in Esp, Enp, Efp.
  by destruct Hmiss as [? | [? | ?]].
Qed.

End PreambleMore.

(** ** More on the pattern of a math definition *)

Lemma string_app_assoc (a b c : string) : (a ++ b) ++ c = a ++ (b ++ c).
Proof.
  induction a as [| x a IH]; [reflexivity |].
  change (String x ((a ++ b) ++ c) = String x (a ++ (b ++ c))). by rewrite IH.
Qed.

(** X12: a math definition has at most one reading: the pattern fixes both
    operands, each a non-empty run of word characters; and since the match
    is anchored at the start only, whatever follows the closing quote is
    ignored. *)
Theorem math_operands_unique (s g1 g2 : string) :
  math_pattern s g1 g2 ->
  (forall g1' g2', math_pattern s g1' g2' -> g1' = g1 /\ g2' = g2)
  /\ (forall t, math_re (s ++ t) = Some (g1, g2))
  /\ g1 <> "" /\ g2 <> "" /\ is_word g1 = true /\ is_word g2 = true.
Proof.
  intros Hp. split; [| split].
  - intros g1' g2' Hp'. apply math_re_spec in Hp, Hp'.
    rewrite Hp in Hp'. by injection Hp' as <- <-.
  - intros t. apply math_re_spec.
    destruct Hp as (q & op & q' & rest & -> & Hq & Hq' & Hop & Hn1 & Hw1 & Hn2 & Hw2).
    exists q, op, q', (rest ++ t). repeat split; try done.
    change (String q ((g1 ++ String op (g2 ++ String q' rest)) ++ t)
            = String q (g1 ++ String op (g2 ++ String q' (rest ++ t)))).
    rewrite string_app_assoc.
    change (String q (g1 ++ String op ((g2 ++ String q' rest) ++ t))
            = String q (g1 ++ String op (g2 ++ String q' (rest ++ t)))).
    by rewrite string_app_assoc.
  - destruct Hp as (q & op & q' & rest & _ & _ & _ & _ & Hn1 & Hw1 & Hn2 & Hw2). done.
Qed.

(** ** More on the timebase *)

Section TimebaseMore.

Variable timebase_scale_set : pyval -> res string.
Variable timebase_scale_validator : pyval -> res pyval.
Variable timebase_offset_set : pyval -> res string.
Variable timebase_offset_validator : pyval -> res pyval.

Local Abbreviation scale_ctl :=
  (timebase_scale timebase_scale_set timebase_scale_validator).
Local Abbreviation offset_ctl :=
  (timebase_offset timebase_offset_set timebase_offset_validator).
Local Abbreviation setup :=
  (timebase_setup timebase_scale_set timebase_scale_validator
                  timebase_offset_set timebase_offset_validator).

Lemma control_set_cases c v h :
  control_set c v h
  = match validator c v with
    | Ret v' =>
        match set_command c v' with
        | Ret command => (Ret tt, (h ++ [Wrote (ctl_name c) command])%list)
        | Raise e => (Raise e, h)
        end
    | Raise e => (Raise e, h)
    end.
Proof.
  unfold control_set, bind, lift, log.
  destruct (validator c v) as [e | v']; [done |].
  by destruct (set_command c v') as [e | command].
Qed.


(** Only a float lies between the two bounds: an [int] or a [bool] is either
    below 1e-9 or above 20e-3. *)
Lemma hor_magnify_validator hm v :
  validator timebase_hor_magnify hm = Ret v ->
  v = hm /\ exists x, hm = PFloat x /\ (q_1e_9 <= x)%Q /\ (x <= q_20e_3)%Q.
Proof.
  simpl. unfold strict_range.
  destruct hm as [| b | z | x | s | l]; simpl; try discriminate.
  - destruct b; vm_compute; discriminate.
  - destruct (Qle_bool q_1e_9 (inject_Z z)) eqn:E1; [| discriminate].
    destruct (Qle_bool (inject_Z z) q_20e_3) eqn:E2; [| discriminate].
    apply Qle_bool_iff in E1, E2. unfold Qle in E1, E2. simpl in E1, E2. lia.
  - destruct (Qle_bool q_1e_9 x) eqn:E1; [| discriminate].
    destruct (Qle_bool x q_20e_3) eqn:E2; [| discriminate].
    apply Qle_bool_iff in E1, E2. intros [= <-]. split; [done |]. by exists x.
Qed.

Lemma hor_magnify_command hm command :
  command_for timebase_hor_magnify hm = Some command ->
  exists x, hm = PFloat x /\ (q_1e_9 <= x)%Q /\ (x <= q_20e_3)%Q
            /\ command = "HMAG " ++ format_2E x ++ "S".
Proof.
  unfold command_for.
  destruct (validator timebase_hor_magnify hm) as [e | v] eqn:V; [discriminate |].
  apply hor_magnify_validator in V as (-> & x & -> & Hlo & Hhi).
  intros [= <-]. by exists x.
Qed.



Lemma set_unless_None_Ret c v h h' :
  set_unless_None c v h = (Ret tt, h') -> v <> PNone ->
  exists command, command_for c v = Some command
                  /\ h' = (h ++ [Wrote (ctl_name c) command])%list.
Proof.
  intros H Hv.
  assert (control_set c v h = (Ret tt, h')) as Hc by (by destruct v).
  clear H. rewrite control_set_cases in Hc. unfold command_for.
  destruct (validator c v) as [e | v']; [discriminate |].
  destruct (set_command c v') as [e | command]; [discriminate |].
  injection Hc as <-. by exists command.
Qed.

Lemma last_written_snoc name h e :
  last_written name (h ++ [e])
  = match e with
    | Wrote n command => if decide (n = name) then Some command else last_written name h
    | _ => last_written name h
    end.
Proof. unfold last_written. by rewrite fold_left_app. Qed.

(** X14: on an instrument that keeps the settings it is sent, reading the
    timebase after a complete [timebase_setup] returns, for each of the four
    properties, what the instrument makes of the command of its argument;
    for the horizontal magnify and the horizontal position that command
    holds the argument with three significant digits, so the reading can
    tell no more of it. *)
Theorem timebase_after_setup (dev : device) (reading : string -> pyval)
    (scale offset hor_magnify hor_position : pyval) (h h' : history) :
  stores dev reading "timebase_scale" (Attr "timebase_scale") ->
  stores dev reading "timebase_offset" (Attr "timebase_offset") ->
  stores dev reading "timebase_hor_magnify" (Query "HMAG?") ->
  stores dev reading "timebase_hor_position" (Query "HPOS?") ->
  scale <> PNone -> offset <> PNone ->
  hor_magnify <> PNone -> hor_position <> PNone ->
  setup scale offset hor_magnify hor_position h = (Ret tt, h') ->
  exists c_scale c_offset x y p h'',
    command_for scale_ctl scale = Some c_scale
    /\ command_for offset_ctl offset = Some c_offset
    /\ hor_magnify = PFloat x
    /\ py_float hor_position = Ret y
    /\ timebase dev h' = (Ret p, h'')
    /\ p !! "timebase_scale" = Some (reading c_scale)
    /\ p !! "timebase_offset" = Some (reading c_offset)
    /\ p !! "timebase_hor_magnify" = Some (reading ("HMAG " ++ format_2E x ++ "S"))
    /\ p !! "timebase_hor_position" = Some (reading ("HPOS " ++ format_2E y ++ "S")).
Proof.
  intros S1 S2 S3 S4 N1 N2 N3 N4 H. unfold timebase_setup in H.
  apply bind_Ret_inv in H as ([] & h1 & E1 & H).
  apply bind_Ret_inv in H as ([] & h2 & E2 & H).
  apply bind_Ret_inv in H as ([] & h3 & E3 & H).
  destruct (set_unless_None_Ret _ _ _ _ E1 N1) as (c1 & C1 & ->).
  destruct (set_unless_None_Ret _ _ _ _ E2 N2) as (c2 & C2 & ->).
  destruct (set_unless_None_Ret _ _ _ _ E3 N3) as (c3 & C3 & ->).
  destruct (set_unless_None_Ret _ _ _ _ H N4) as (c4 & C4 & ->).
  apply hor_magnify_command in C3 as (x & -> & _ & _ & ->).
  assert (exists y, py_float hor_position = Ret y
                    /\ c4 = "HPOS " ++ format_2E y ++ "S") as (y & Hy & ->).
  { unfold command_for in C4. simpl in C4. unfold no_validator, py_format in C4.
    destruct (py_float hor_position) as [e | y]; [discriminate |].
    injection C4 as <-. by exists y. }
  simpl.
  set (hw := ((((h ++ [Wrote "timebase_scale" c1])
                ++ [Wrote "timebase_offset" c2])
                ++ [Wrote "timebase_hor_magnify" ("HMAG " ++ format_2E x ++ "S")])
                ++ [Wrote "timebase_hor_position" ("HPOS " ++ format_2E y ++ "S")])%list).
  assert (last_written "timebase_scale" hw = Some c1) as L1.
  { unfold hw. rewrite !last_written_snoc. by repeat case_decide. }
  assert (last_written "timebase_offset" hw = Some c2) as L2.
  { unfold hw. rewrite !last_written_snoc. by repeat case_decide. }
  assert (last_written "timebase_hor_magnify" hw
          = Some ("HMAG " ++ format_2E x ++ "S")) as L3.
  { unfold hw. rewrite !last_written_snoc. by repeat case_decide. }
  assert (last_written "timebase_hor_position" hw
          = Some ("HPOS " ++ format_2E y ++ "S")) as L4.
  { unfold hw. rewrite !last_written_snoc. by repeat case_decide. }
  exists c1, c2, x, y. eexists _, _.
  split; [done |]. split; [done |]. split; [done |]. split; [done |].
  split.
  { unfold timebase, bind, get.
    rewrite (S1 _ _ L1).
    rewrite (S2 (hw ++ [_])%list c2) by (by rewrite last_written_snoc).
    rewrite (S3 ((hw ++ [_]) ++ [_])%list ("HMAG " ++ format_2E x ++ "S"))
      by (by rewrite !last_written_snoc).
    rewrite (S4 (((hw ++ [_]) ++ [_]) ++ [_])%list ("HPOS " ++ format_2E y ++ "S"))
      by (by rewrite !last_written_snoc).
    reflexivity. }
  by simplify_map_eq.
Qed.

End TimebaseMore.

Lemma Qeq_bool_inject_Z a b : Qeq_bool (inject_Z a) (inject_Z b) = true -> a = b.
Proof. intros H. apply Qeq_bool_iff in H. unfold Qeq in H. simpl in H. lia. Qed.

(** What [%d] prints for a value equal to an integer. *)
Lemma py_trunc_eq v k : py_eq v (PInt k) = true -> py_trunc v = Ret k.
Proof.
  destruct v as [| b | z | x | s | l]; simpl; try discriminate.
  - by intros ->%Qeq_bool_inject_Z.
  - by intros ->%Qeq_bool_inject_Z.
  - intros H. apply Qeq_bool_iff in H. unfold Qeq in H. simpl in H.
    f_equal. rewrite Z.mul_1_r in H. rewrite H. by apply Z.quot_mul.
Qed.

(** X15: the setter of [acquisition_average] lets through exactly the
    values equal to one of the eight counts 4, 16, 32, 64, 128, 256, 512
    and 1024, each sent as one command [AVGA] with the digits of the count;
    every other value is refused with an invalid-argument error before
    anything is sent. *)
Theorem acquisition_average_set (v : pyval) (h : history) :
  (py_in v acquisition_average_values = true
   /\ exists k : Z,
        In (PInt k) acquisition_average_values
        /\ py_eq v (PInt k) = true
        /\ control_set acquisition_average_control v h
           = (Ret tt, (h ++ [Wrote "acquisition_average" ("AVGA " ++ decimal k)])%list))
  \/ (py_in v acquisition_average_values = false
      /\ exists e, control_set acquisition_average_control v h = (Raise e, h)
                   /\ is_invalid_argument e = true).
Proof.
  unfold control_set, bind, lift, log.
  change (validator acquisition_average_control v)
    with (strict_discrete_set v acquisition_average_values).
  change (set_command acquisition_average_control)
    with (py_format "AVGA " Conv_d "").
  unfold strict_discrete_set.
  destruct (py_in v acquisition_average_values) eqn:E.
  - left. split; [done |].
    apply existsb_exists in E as (w & Hw & Heq).
    assert (exists k, w = PInt k) as [k ->].
    { simpl in Hw. destruct Hw as [<- | [<- | [<- | [<- | [<- | [<- | [<- | [<- | []]]]]]]]];
        by eexists. }
    exists k. split; [done |]. split; [done |].
    unfold py_format. rewrite (py_trunc_eq _ _ Heq).
    simpl in Hw.
    destruct Hw as [[= <-] | [[= <-] | [[= <-] | [[= <-] | [[= <-] | [[= <-]
                   | [[= <-] | [[= <-] | []]]]]]]]]; reflexivity.
  - right. split; [done |]. exists (ValueError "value is not in the discrete set").
    by split.
Qed.

(** ** The further properties at work on the benches *)

(** The reply [AVERAGE,16] becomes the pair of a tag and a count. *)
Lemma get_process_result_witness :
  acquisition_type_get_process (PList [PStr "AVERAGE"; PFloat (16 # 1)])
  = Ret (PList [PStr "average"; PInt 16])
  /\ py_getitem (PList [PStr "average"; PInt 16]) 0 = Ret (PStr "average").
Proof.
  split; [reflexivity |].
  destruct (get_process_result (PList [PStr "AVERAGE"; PFloat (16 # 1)])
              (PList [PStr "average"; PInt 16]) eq_refl)
    as [_ [[Hw _] | (x & z & _ & _ & _ & Hg)]]; [discriminate Hw | exact Hg].
Defined.

(** Processing the processed reply changes nothing. *)
Lemma get_process_idempotent_witness :
  acquisition_type_get_process (PList [PStr "AVERAGE"; PFloat (16 # 1)])
  = Ret (PList [PStr "average"; PInt 16])
  /\ acquisition_type_get_process (PList [PStr "average"; PInt 16])
     = Ret (PList [PStr "average"; PInt 16]).
Proof.
  split; [reflexivity |].
  exact (get_process_idempotent (PList [PStr "AVERAGE"; PFloat (16 # 1)]) _ eq_refl).
Defined.

(** The math trace defined as [MATH+C1], with three nested calls allowed. *)
Lemma self_referential_math_definition_witness :
  py_getitem (PList [PStr "EQN"; PStr "'MATH+C1'"]) 1 = Ret (PStr "'MATH+C1'")
  /\ math_pattern "'MATH+C1'" "MATH" "C1"
  /\ sanitize_names "MATH" = Ret "MATH"
  /\ acquisition_sample_size bench_loop sanitize_names 3 (PStr "MATH") []
     = (Raise RecursionError,
        [Get (Attr "math_define"); Get (Attr "math_define"); Get (Attr "math_define")]).
Proof.
  assert (math_pattern "'MATH+C1'" "MATH" "C1") as Hp.
  { apply math_re_spec. reflexivity. }
  split; [reflexivity |]. split; [exact Hp |]. split; [reflexivity |].
  exact (self_referential_math_definition bench_loop sanitize_names 3 (PStr "MATH")
           (PList [PStr "EQN"; PStr "'MATH+C1'"]) "'MATH+C1'" "MATH" "C1" []
           (fun _ => eq_refl) eq_refl Hp eq_refl eq_refl).
Defined.

(** Channel 1 on the bench: accepted, and one query made. *)
Lemma sample_size_returns_only_for_accepted_witness :
  acquisition_sample_size bench_c1 sanitize_names 1 (PStr "C1") []
  = (Ret (PFloat (3500000 # 1)), [Get (Query "SANU? C1")])
  /\ exists v l,
       sanitized sanitize_names (PStr "C1") = Ret v
       /\ py_in v accepted_sources = true
       /\ [Get (Query "SANU? C1")] = ([] ++ l)%list /\ l <> [].
Proof.
  split; [reflexivity |].
  exact (sample_size_returns_only_for_accepted bench_c1 sanitize_names 1 (PStr "C1")
           _ [] _ eq_refl).
Defined.

(** Channel 1 on the bench: the preamble holds the reading of [SANU? C1]. *)
Lemma direct_channel_sampled_points_witness :
  (forall hh, dev_get bench_c1 hh (Attr "waveform_source") = Ret (PStr "C1"))
  /\ sanitized sanitize_names (PStr "C1") = Ret (PStr "C1")
  /\ channel_query (PStr "C1") = Some "SANU? C1"
  /\ waveform_preamble bench_c1 sanitize_names 1 [] = (Ret bench_c1_preamble, bench_c1_history)
  /\ exists r, bench_c1_preamble !! "sampled_points" = Some r.
Proof.
  split; [intros hh; reflexivity |]. split; [reflexivity |]. split; [reflexivity |].
  split; [exact bench_c1_run |].
  destruct (direct_channel_sampled_points bench_c1 sanitize_names 1 (PStr "C1")
              (PStr "C1") "SANU? C1" [] _ _ (fun _ => eq_refl) eq_refl eq_refl
              bench_c1_run) as (_ & r & _ & _ & Hr).
  exists r. exact Hr.
Defined.

(** The Y axis of the math trace, filled into no preamble. *)
Lemma fill_yaxis_frame_witness :
  _fill_yaxis_preamble bench_math None []
  = (Ret (<["unit" := PNone]> (<["yoffset" := PInt 25]> (<["ydiv" := PFloat (1 # 2)]> ∅))),
     [Get (Attr "waveform_source"); Get (Attr "math_vdiv"); Get (Attr "math_vpos")])
  /\ dom (<["unit" := PNone]> (<["yoffset" := PInt 25]>
            (<["ydiv" := PFloat (1 # 2)]> (∅ : gmap string pyval)))) = yaxis_keys.
Proof.
  split; [reflexivity |].
  destruct (fill_yaxis_frame bench_math None [] _ _ eq_refl) as (_ & _ & Hd).
  exact (Hd eq_refl).
Defined.

(** The fields of the bench preamble. *)
Lemma preamble_has_all_fields_witness :
  waveform_preamble bench_c1 sanitize_names 1 [] = (Ret bench_c1_preamble, bench_c1_history)
  /\ dom bench_c1_preamble = preamble_keys.
Proof.
  split; [exact bench_c1_run |].
  exact (preamble_has_all_fields bench_c1 sanitize_names 1 [] _ _ bench_c1_run).
Defined.

(** The source of the bench preamble. *)
Lemma preamble_source_field_witness :
  waveform_preamble bench_c1 sanitize_names 1 [] = (Ret bench_c1_preamble, bench_c1_history)
  /\ bench_c1_preamble !! "transmitted_points" = Some PNone
  /\ exists source, bench_c1_preamble !! "source" = Some source.
Proof.
  split; [exact bench_c1_run |].
  destruct (preamble_source_field bench_c1 sanitize_names 1 [] _ _ bench_c1_run)
    as (Ht & source & _ & Hs & _).
  split; [exact Ht |]. exists source. exact Hs.
Defined.

(** A reply without NP: the assembly stops after the reply. *)
Lemma missing_marker_aborts_witness :
  dev_values bench_no_np [] "WFSU?"
  = Ret [PStr "SP"; PFloat (1 # 1); PStr "FP"; PFloat (0 # 1)]
  /\ (PStr "NP" ∉ [PStr "SP"; PFloat (1 # 1); PStr "FP"; PFloat (0 # 1)])
  /\ exists e,
       waveform_preamble bench_no_np sanitize_names 1 [] = (Raise e, [Values "WFSU?"])
       /\ (is_invalid_argument e = true \/ e = IndexError).
Proof.
  assert (PStr "NP" ∉ [PStr "SP"; PFloat (1 # 1); PStr "FP"; PFloat (0 # 1)]) as Hn.
  { intros H. repeat (apply elem_of_cons in H as [H | H]; [discriminate H |]).
    by apply elem_of_nil in H. }
  split; [reflexivity |]. split; [exact Hn |].
  destruct (missing_marker_aborts bench_no_np sanitize_names 1 [] _ eq_refl
              (or_intror (or_introl Hn))) as (e & He & Hk & _).
  exists e. split; [exact He | exact Hk].
Defined.

(** The definition of the bench has one reading, with or without a tail. *)
Lemma math_operands_unique_witness :
  math_pattern "'C1+C3'" "C1" "C3"
  /\ math_re ("'C1+C3'" ++ ";OFF") = Some ("C1", "C3").
Proof.
  split; [exact math_pattern_c1_plus_c3 |].
  destruct (math_operands_unique "'C1+C3'" "C1" "C3" math_pattern_c1_plus_c3)
    as (_ & Ht & _).
  exact (Ht ";OFF").
Defined.


Lemma echo_scope_stores :
  stores echo_scope echo_reading "timebase_scale" (Attr "timebase_scale")
  /\ stores echo_scope echo_reading "timebase_offset" (Attr "timebase_offset")
  /\ stores echo_scope echo_reading "timebase_hor_magnify" (Query "HMAG?")
  /\ stores echo_scope echo_reading "timebase_hor_position" (Query "HPOS?").
Proof. repeat split; intros h v H; simpl; by rewrite H. Qed.

(** The four settings sent to a scope that remembers them, then read: the
    zoom scale 0.0001234 comes back as 0.000123. *)
Lemma timebase_after_setup_witness :
  let h' := [Wrote "timebase_scale" "TDIV 1.00E-03S";
             Wrote "timebase_offset" "TRDL 0.00E+00S";
             Wrote "timebase_hor_magnify" "HMAG 1.23E-04S";
             Wrote "timebase_hor_position" "HPOS 0.00E+00S"] in
  timebase_setup (py_format "TDIV " Conv_2E "S") no_validator
                 (py_format "TRDL " Conv_2E "S") no_validator
                 (PFloat f_1e_3) (PInt 0) (PFloat f_1234e_7) (PInt 0) []
  = (Ret tt, h')
  /\ exists p h'',
       timebase echo_scope h' = (Ret p, h'')
       /\ p !! "timebase_hor_magnify" = Some (PFloat f_123e_6).
Proof.
  intros h'.
  assert (timebase_setup (py_format "TDIV " Conv_2E "S") no_validator
            (py_format "TRDL " Conv_2E "S") no_validator
            (PFloat f_1e_3) (PInt 0) (PFloat f_1234e_7) (PInt 0) []
          = (Ret tt, h')) as Hrun by (vm_compute; reflexivity).
  split; [exact Hrun |].
  destruct echo_scope_stores as (S1 & S2 & S3 & S4).
  destruct (timebase_after_setup (py_format "TDIV " Conv_2E "S") no_validator
              (py_format "TRDL " Conv_2E "S") no_validator
              echo_scope echo_reading
              (PFloat f_1e_3) (PInt 0) (PFloat f_1234e_7) (PInt 0)
              [] h' S1 S2 S3 S4
              ltac:(discriminate) ltac:(discriminate) ltac:(discriminate)
              ltac:(discriminate) Hrun)
    as (c1 & c2 & x & y & p & h'' & _ & _ & Hx & _ & Hp & _ & _ & Hm & _).
  injection Hx as <-.
  exists p, h''. split; [exact Hp | exact Hm].
Defined.

(** ** The reply to a skew query *)

Example rstrip_S_cases :
  map rstrip_S ["1.00E-09S"; "SSS"; "aSbSS"; "s"; ""]
  = ["1.00E-09"; ""; "aSb"; "s"; ""].
Proof. reflexivity. Qed.

Lemma is_S_eq (c : ascii) : (N_of_ascii c =? 83)%N = true -> c = "S"%char.
Proof.
  intros H. apply N.eqb_eq in H.
  rewrite <- (ascii_N_embedding c), H. reflexivity.
Qed.

Lemma rstrip_S_split (v : string) :
  exists k, v = rstrip_S v ++ run_S k /\ ends_with_S (rstrip_S v) = false.
Proof.
  induction v as [| c v (k & Hv & He)].
  - exists O. split; reflexivity.
  - cbn [rstrip_S]. destruct (rstrip_S v) as [| d r] eqn:Er.
    + destruct (N_of_ascii c =? 83)%N eqn:Ec.
      * exists (S k). apply is_S_eq in Ec. subst c.
        split; [| reflexivity].
        change ("" ++ run_S (S k)) with (String "S" (run_S k)).
        f_equal. exact Hv.
      * exists k. split.
        -- change (String c "" ++ run_S k) with (String c ("" ++ run_S k)).
           f_equal. exact Hv.
        -- cbn [ends_with_S]. exact Ec.
    + exists k. split.
      * change (String c (String d r) ++ run_S k)
          with (String c (String d r ++ run_S k)).
        f_equal. exact Hv.
      * exact He.
Qed.

Lemma rstrip_S_run_only (k : nat) : rstrip_S (run_S k) = "".
Proof. induction k as [| k IH]; [reflexivity |]. cbn [run_S rstrip_S]. by rewrite IH. Qed.

Lemma rstrip_S_run (t : string) (k : nat) :
  ends_with_S t = false -> rstrip_S (t ++ run_S k) = t.
Proof.
  induction t as [| c t IH]; intros He.
  - change ("" ++ run_S k) with (run_S k). apply rstrip_S_run_only.
  - change (String c t ++ run_S k) with (String c (t ++ run_S k)).
    cbn [rstrip_S]. destruct t as [| d t].
    + change ("" ++ run_S k) with (run_S k). rewrite rstrip_S_run_only.
      cbn [ends_with_S] in He. by rewrite He.
    + rewrite IH by exact He. reflexivity.
Qed.

(** X16: the reply to a skew query, as [skew_factor] hands it on, is the
    reply without its trailing letters [S]: the reply is the result followed
    by a run of [S], the result does not end with [S], stripping twice
    changes nothing, and whatever does not end with [S] comes back from under
    any run of [S]. *)
Theorem skew_reply_stripped (v : string) :
  (exists k, v = rstrip_S v ++ run_S k)
  /\ ends_with_S (rstrip_S v) = false
  /\ rstrip_S (rstrip_S v) = rstrip_S v
  /\ (forall t k, ends_with_S t = false -> rstrip_S (t ++ run_S k) = t).
Proof.
  destruct (rstrip_S_split v) as (k & Hv & He).
  split; [by exists k |]. split; [exact He |]. split.
  - pose proof (rstrip_S_run (rstrip_S v) 0 He) as H.
    replace (rstrip_S v ++ run_S 0) with (rstrip_S v) in H; [exact H |].
    clear. induction (rstrip_S v) as [| c s IH]; [reflexivity |].
    change (String c s ++ run_S 0) with (String c (s ++ run_S 0)). by f_equal.
  - intros t k'. apply rstrip_S_run.
Qed.
